(** * RSpace workshop scripts: the experiment-to-document pipeline

    A shallow embedding of [scripts/document_from_experiment.py] (directory
    walk, size-gated upload of every file, assembly of the summary document)
    and of the markdown/json conversion of [scripts/create_document.py].

    Python features are modelled as follows.
    - [str]: [string]; [in] on strings is substring containment.
    - [float]: IEEE binary64 through [SpecFloat] (precision 53, emax 1024);
      [repr]/[str] of a float is the shortest decimal string that reads back
      to the same double.
    - exceptions and side effects (calls of the ELN client, calls of the
      logger): a state-and-exception monad [M].
    - the file system: a snapshot tree of nodes, read through [pathlib]-like
      queries. *)

From Stdlib Require Import ZArith List String Ascii Bool Lia.
From Stdlib Require Import SpecFloat.
Import ListNotations.

Local Open Scope string_scope.
Local Open Scope Z_scope.

(* ================================================================== *)
(** * Python strings *)

Module PyStr.

(** [sub in s] for two strings: [sub] occurs in [s] as a contiguous run. *)
Fixpoint contains (sub s : string) : bool :=
  if String.prefix sub s then true
  else match s with
       | EmptyString => false
       | String _ s' => contains sub s'
       end.

(** [s.rfind(c)]: index of the last occurrence of [c], [-1] when absent.
    [rfind_from c s i] reads [s] as the tail that starts at index [i]. *)
Fixpoint rfind_from (c : ascii) (s : string) (i : Z) : Z :=
  match s with
  | EmptyString => -1
  | String a s' =>
      let r := rfind_from c s' (i + 1) in
      if 0 <=? r then r else if Ascii.eqb a c then i else -1
  end.

Definition rfind (c : ascii) (s : string) : Z := rfind_from c s 0.

Definition len (s : string) : Z := Z.of_nat (String.length s).

(** [s[i:]] for [0 <= i]. *)
Definition slice_from (s : string) (i : Z) : string :=
  String.substring (Z.to_nat i) (String.length s - Z.to_nat i) s.

(** [s[:i]] for [0 <= i]. *)
Definition slice_to (s : string) (i : Z) : string :=
  String.substring 0 (Z.to_nat i) s.

(** [sep.join(l)]. *)
Definition join (sep : string) (l : list string) : string :=
  String.concat sep l.

Fixpoint repeat_char (c : ascii) (n : nat) : string :=
  match n with
  | O => EmptyString
  | S n' => String c (repeat_char c n')
  end.

Definition digit_char (d : Z) : ascii :=
  ascii_of_nat (48 + Z.to_nat d).

(** Decimal digits of a non-negative integer, most significant first;
    the empty string for [0].  [fuel] bounds the number of digits. *)
Fixpoint digits_fuel (fuel : nat) (n : Z) (acc : string) : string :=
  match fuel with
  | O => acc
  | S fuel' =>
      if n <=? 0 then acc
      else digits_fuel fuel' (n / 10) (String (digit_char (n mod 10)) acc)
  end.

(** [str(n)] for an integer [n]. *)
Definition of_int (n : Z) : string :=
  match n with
  | Z0 => "0"
  | Zpos _ => digits_fuel (S (Z.to_nat (Z.log2 n))) n ""
  | Zneg _ => "-" ++ digits_fuel (S (Z.to_nat (Z.log2 (- n)))) (- n) ""
  end.

End PyStr.

(* ================================================================== *)
(** * Python floats *)

Module PyFloat.

Definition prec : Z := 53.
Definition emax : Z := 1024.

Definition float := spec_float.

(** [float(n)] for an integer [n], rounded to nearest, ties to even.
    (CPython raises [OverflowError] from [2^1024] on; file sizes are far
    below.) *)
Definition of_int (n : Z) : float := binary_normalize prec emax n 0 false.

Definition mul (x y : float) : float := SFmul prec emax x y.
Definition div (x y : float) : float := SFdiv prec emax x y.
Definition leb (x y : float) : bool := SFleb x y.
Definition ltb (x y : float) : bool := SFltb x y.

(** The literal [1e-6] (also written [1E-6]): the double nearest to
    [10^-6], which is the correctly rounded quotient [1.0 / 1000000.0]. *)
Definition lit_1e_6 : float := Eval vm_compute in div (of_int 1) (of_int 1000000).

(** The literal [2.0]. *)
Definition lit_2_0 : float := Eval vm_compute in of_int 2.

(** ** [repr(x)]: shortest round-tripping decimal string *)

(** A positive finite double [m * 2^e] is the only double in the interval
    between the midpoints to its two neighbours; in units of [2^(e-2)] the
    double is [4m] and the interval is [[4m - lo_gap, 4m + 2]], where the
    lower gap is halved when [m] is the least mantissa of its binade.  The
    end points belong to the interval when [m] is even (ties to even). *)
Definition lower_gap (m : positive) (e : Z) : Z :=
  if andb (Z.pos m =? 2 ^ (prec - 1)) (3 - emax - prec <? e) then 1 else 2.

Record scaled := { sc_lo : Z; sc_x : Z; sc_hi : Z; sc_unit : Z }.

(** The interval and the step [10^q], all multiplied by the common
    denominator so that they are integers. *)
Definition scale (m : positive) (e q : Z) : scaled :=
  let E := e - 2 in
  let a := 2 ^ (Z.max E 0) * 10 ^ (Z.max (- q) 0) in
  let b := 10 ^ (Z.max q 0) * 2 ^ (Z.max (- E) 0) in
  {| sc_lo := (4 * Z.pos m - lower_gap m e) * a;
     sc_x := 4 * Z.pos m * a;
     sc_hi := (4 * Z.pos m + 2) * a;
     sc_unit := b |}.

Definition inside (closed : bool) (s : scaled) (v : Z) : bool :=
  if closed then andb (sc_lo s <=? v) (v <=? sc_hi s)
  else andb (sc_lo s <? v) (v <? sc_hi s).

(** The multiple [d * 10^q] of [10^q] inside the rounding interval that is
    nearest to the double (ties to the even [d]), if there is one. *)
Definition candidate (m : positive) (e q : Z) : option Z :=
  let s := scale m e q in
  let closed := Z.even (Z.pos m) in
  let d := sc_x s / sc_unit s in
  let lo_ok := inside closed s (d * sc_unit s) in
  let hi_ok := inside closed s ((d + 1) * sc_unit s) in
  match lo_ok, hi_ok with
  | true, true =>
      let r := sc_x s - d * sc_unit s in
      match Z.compare (2 * r) (sc_unit s) with
      | Lt => Some d
      | Gt => Some (d + 1)
      | Eq => Some (if Z.even d then d else d + 1)
      end
  | true, false => Some d
  | false, true => Some (d + 1)
  | false, false => None
  end.

(** The coarsest decimal scale [q] with a candidate: its digits are the
    shortest ones.  The search starts at a [q] with [10^q] above the
    double, where no multiple fits, and ends at the latest at the scale
    of the double's own exact decimal expansion. *)
Fixpoint shortest_from (fuel : nat) (m : positive) (e q : Z) : Z * Z :=
  match candidate m e q with
  | Some d => (d, q)
  | None =>
      match fuel with
      | O => (Z.pos m, q)
      | S fuel' => shortest_from fuel' m e (q - 1)
      end
  end.

Definition shortest (m : positive) (e : Z) : Z * Z :=
  let q0 := Z.max 1 (Z.pos (digits2_pos m) + e) in
  shortest_from (Z.to_nat (q0 - Z.min 0 (e - 2))) m e q0.

(** CPython's [format_float_short] with format code ['r']: [digits] are
    the significant digits and the value is [0.digits * 10^decpt]. *)
Definition format_exponent (x : Z) : string :=
  let a := Z.abs x in
  (if x <? 0 then "-" else "+")
    ++ (if a <? 10 then "0" else "") ++ PyStr.of_int a.

Definition format_short (digits : string) (decpt : Z) : string :=
  let n := PyStr.len digits in
  if orb (decpt <=? -4) (16 <? decpt) then
    PyStr.slice_to digits 1
      ++ (if 1 <? n then "." ++ PyStr.slice_from digits 1 else "")
      ++ "e" ++ format_exponent (decpt - 1)
  else if decpt <=? 0 then
    "0." ++ PyStr.repeat_char "0" (Z.to_nat (- decpt)) ++ digits
  else if n <=? decpt then
    digits ++ PyStr.repeat_char "0" (Z.to_nat (decpt - n)) ++ ".0"
  else
    PyStr.slice_to digits decpt ++ "." ++ PyStr.slice_from digits decpt.

Definition repr (x : float) : string :=
  match x with
  | S754_nan => "nan"
  | S754_infinity s => if s then "-inf" else "inf"
  | S754_zero s => if s then "-0.0" else "0.0"
  | S754_finite s m e =>
      let '(d, q) := shortest m e in
      let digits := PyStr.of_int d in
      (if s then "-" else "") ++ format_short digits (PyStr.len digits + q)
  end.

End PyFloat.


(* ================================================================== *)
(** * Exceptions, effects and the monad of the scripts *)

(** The exceptions the scripts meet, all subclasses of [Exception]; each
    carries its message ([str(e)]).  [ClientError] stands for whatever the
    ELN client raises (connection, authentication, server errors). *)
Inductive exn : Type :=
| ValueError (msg : string)
| OSError (msg : string)
| UnicodeDecodeError (msg : string)
| ClientError (msg : string).

Definition exn_str (e : exn) : string :=
  match e with
  | ValueError msg | OSError msg | UnicodeDecodeError msg | ClientError msg => msg
  end.

Inductive result (A : Type) : Type :=
| Ok (a : A)
| Raise (e : exn).

Arguments Ok {A} a.
Arguments Raise {A} e.

(** ** Paths ([pathlib.Path], POSIX flavour) *)

Record Path : Type := { anchored : bool; parts : list string }.

Module PyPath.

(** [str(p)]. *)
Definition str (p : Path) : string :=
  if anchored p then "/" ++ PyStr.join "/" (parts p)
  else match parts p with
       | [] => "."
       | _ => PyStr.join "/" (parts p)
       end.

(** [p.name]: the final component. *)
Definition name (p : Path) : string := List.last (parts p) "".

(** [p.suffix]: from the last dot of the name on, when that dot is neither
    the first nor the last character of the name. *)
Definition suffix (p : Path) : string :=
  let nm := name p in
  let i := PyStr.rfind "." nm in
  if andb (0 <? i) (i <? PyStr.len nm - 1) then PyStr.slice_from nm i
  else "".

(** [p / nm]. *)
Definition child (p : Path) (nm : string) : Path :=
  {| anchored := anchored p; parts := parts p ++ [nm] |}.

End PyPath.

(** ** The file system, as a snapshot *)

(** What a directory entry is to [is_file()] and [is_dir()]: a regular file
    (its size in bytes and what [read_text()] gives: the text, or the
    exception of an unreadable or undecodable file), a directory with its
    entries in [iterdir()] order, or something that is neither: a socket, a
    FIFO or a device, with its size, or a dangling link, with no size (a
    link is followed: [exists()] does not see a dangling one and [stat()]
    fails on it). *)
#[warnings="-register-all"] Inductive node : Type :=
| File (st_size : Z) (text : result string)
| Dir (st_size : Z) (entries : list (string * node))
| Special (st_size : option Z).

Record filesystem : Type := { cwd : list string; root : node }.

Module FS.

Fixpoint assoc (nm : string) (es : list (string * node)) : option node :=
  match es with
  | [] => None
  | (nm', n) :: es' => if String.eqb nm nm' then Some n else assoc nm es'
  end.

Fixpoint resolve (n : node) (ps : list string) : option node :=
  match ps with
  | [] => Some n
  | nm :: ps' =>
      match n with
      | Dir _ es =>
          match assoc nm es with
          | Some c => resolve c ps'
          | None => None
          end
      | _ => None
      end
  end.

(** [p.absolute()]. *)
Definition absolute (fs : filesystem) (p : Path) : Path :=
  if anchored p then p
  else {| anchored := true; parts := cwd fs ++ parts p |}.

Definition locate (fs : filesystem) (p : Path) : option node :=
  resolve (root fs) (parts (absolute fs p)).

(** [p.exists()]: false for a path that leads nowhere and for a dangling
    link. *)
Definition exists_ (fs : filesystem) (p : Path) : bool :=
  match locate fs p with
  | Some (Special None) => false
  | Some _ => true
  | None => false
  end.

Definition is_file (fs : filesystem) (p : Path) : bool :=
  match locate fs p with Some (File _ _) => true | _ => false end.

Definition is_dir (fs : filesystem) (p : Path) : bool :=
  match locate fs p with Some (Dir _ _) => true | _ => false end.

Definition node_size (n : node) : option Z :=
  match n with
  | File sz _ | Dir sz _ => Some sz
  | Special st => st
  end.

Definition no_such_file (p : Path) : exn :=
  OSError ("No such file or directory: " ++ PyPath.str p).

(** [p.stat().st_size]. *)
Definition stat_size (fs : filesystem) (p : Path) : result Z :=
  match locate fs p with
  | Some n =>
      match node_size n with
      | Some sz => Ok sz
      | None => Raise (no_such_file p)
      end
  | None => Raise (no_such_file p)
  end.

(** [p.read_text()]. *)
Definition read_text (fs : filesystem) (p : Path) : result string :=
  match locate fs p with
  | Some (File _ t) => t
  | Some (Dir _ _) => Raise (OSError ("Is a directory: " ++ PyPath.str p))
  | Some (Special (Some _)) => Raise (OSError ("Cannot read: " ++ PyPath.str p))
  | Some (Special None) => Raise (no_such_file p)
  | None => Raise (no_such_file p)
  end.

(** [p.open(mode)] for reading bytes: fails on a missing path, on a
    dangling link and on a directory. *)
Definition open_rb (fs : filesystem) (p : Path) : result unit :=
  match locate fs p with
  | Some (Dir _ _) => Raise (OSError ("Is a directory: " ++ PyPath.str p))
  | Some (Special None) => Raise (no_such_file p)
  | Some _ => Ok tt
  | None => Raise (no_such_file p)
  end.

End FS.

(** ** The ELN client and the logger *)

(** The response of [ELNClient.upload_file]: a dictionary that holds the
    attachment identifier under the key [id]. *)
Record Response : Type := { id : string }.

(** One call of [client.upload_file(f, caption=...)]: the file and the
    caption. *)
Definition upload_call : Type := (Path * string)%type.

Inductive level : Type := DEBUG | INFO | ERROR.

(** The logger calls of [document_from_experiment.py], one constructor per
    call site (the line of the call in brackets). *)
Inductive message : Type :=
| ReadText (text : string) (filename : Path)            (* [81] *)
| FormattingMarkdown                                    (* [83] *)
| ConvertingJson                                        (* [86] *)
| ProcessingDirectory (directory : Path)                (* [116] *)
| ProcessingChild (child directory : Path)              (* [120] *)
| ChildIsDirectory (child : Path)                       (* [122] *)
| ProcessingSubdirectory (child : Path)                 (* [124] *)
| IgnoringSubdirectory (child directory : Path)         (* [128] *)
| ChildIsFile (child : Path)                            (* [133] *)
| UploadingFile (path : Path) (megabytes : PyFloat.float) (* [197] *)
| UploadedFile (path : Path) (response : Response)      (* [205] *)
| UploadingFiles                                        (* [286] *)
| IgnoringFiletype (file : Path)                        (* [290] *)
| IgnoringFileDueToError (file : Path) (e : exn)        (* [299] *)
| ContentError (e : exn)                                (* [313] *)
| DidNotAppend (file : Path).                           (* [314] *)

(** What a run has done to the outside so far: the uploads requested of the
    client and the calls of the logger (every call, whatever level the
    logger was set to), both oldest first. *)
Record world : Type := { calls : list upload_call; log : list (level * message) }.

Definition M (A : Type) : Type := world -> result A * world.

Definition ret {A} (a : A) : M A := fun w => (Ok a, w).

Definition raise {A} (e : exn) : M A := fun w => (Raise e, w).

Definition bind {A B} (m : M A) (k : A -> M B) : M B :=
  fun w =>
    match m w with
    | (Ok a, w') => k a w'
    | (Raise e, w') => (Raise e, w')
    end.

(** [try: body / except Exception as e: handler / else: orelse]. *)
Definition try_except_else {A B} (body : M A) (handler : exn -> M B)
    (orelse : A -> M B) : M B :=
  fun w =>
    match body w with
    | (Ok a, w') => orelse a w'
    | (Raise e, w') => handler e w'
    end.

Definition lift {A} (r : result A) : M A := fun w => (r, w).

Declare Scope py_scope.
Delimit Scope py_scope with py.
Notation "x <- m ;; k" := (bind m (fun x => k))
  (at level 61, m at next level, right associativity) : py_scope.
Notation "m ;; k" := (bind m (fun _ => k))
  (at level 61, right associativity) : py_scope.
Local Open Scope py_scope.

Definition logger (lv : level) (msg : message) : M unit :=
  fun w => (Ok tt, {| calls := calls w; log := log w ++ [(lv, msg)] |}).

(** What the scripts take from outside the repository. *)
Record Env : Type := {
  fs : filesystem;
  (** [client.upload_file]: the outcome for a file and caption, given the
      uploads requested before. *)
  upload_file : list upload_call -> Path -> string -> result Response;
  (** [datetime.datetime.now().strftime(...)] at an upload, given the
      uploads requested before. *)
  strftime_now : list upload_call -> string;
  (** [markdown.markdown(text, extensions=...)]. *)
  markdown_markdown : string -> list string -> string;
  (** [json2html.json2html.convert(text)]. *)
  json2html_convert : string -> result string
}.

Definition dquote : string := String (ascii_of_nat 34) EmptyString.
Definition newline : string := String (ascii_of_nat 10) EmptyString.
Definition tab : string := String (ascii_of_nat 9) EmptyString.

(* ================================================================== *)
(** * [scripts/document_from_experiment.py] *)

Section DocumentFromExperiment.

Variable env : Env.

(** ** [file2html] *)

Definition file2html (filename : Path) : M string :=
  if FS.exists_ (fs env) filename then
    if FS.is_file (fs env) filename then
      text <- lift (FS.read_text (fs env) filename) ;;
      logger DEBUG (ReadText text filename) ;;
      if String.eqb (PyPath.suffix filename) ".md" then
        logger DEBUG FormattingMarkdown ;;
        ret (markdown_markdown env text [])
      else if String.eqb (PyPath.suffix filename) ".json" then
        logger DEBUG ConvertingJson ;;
        lift (json2html_convert env text)
      else ret text
    else
      raise (ValueError ("File "
               ++ PyPath.str (FS.absolute (fs env) filename)
               ++ " is not a file"))
  else
    raise (ValueError ("File "
             ++ PyPath.str (FS.absolute (fs env) filename)
             ++ " does not exist")).

(** ** [list_files] *)

Definition cannot_process (directory : Path) : exn :=
  ValueError ("Cannot process directory "
    ++ PyPath.str (FS.absolute (fs env) directory)
    ++ ". It is either not a directory or does not exist.").

Definition could_not_recognize (child directory : Path) : exn :=
  ValueError ("Could not recognize directory content "
    ++ PyPath.str child ++ " in "
    ++ PyPath.str (FS.absolute (fs env) directory)).

(** The loop [for child in directory.iterdir()] over the entries [es] of
    the directory, with the list [files] built so far; [walk child c] is
    the recursive call of [list_files] on a child that is the directory
    [c]. *)
Fixpoint iterdir (walk : Path -> node -> M (list Path)) (directory : Path)
    (process_subdir : bool) (es : list (string * node)) (files : list Path)
    {struct es} : M (list Path) :=
  match es with
  | [] => ret files
  | (nm, c) :: es' =>
      let child := PyPath.child directory nm in
      logger DEBUG (ProcessingChild child directory) ;;
      match c with
      | Dir _ _ =>
          logger DEBUG (ChildIsDirectory child) ;;
          if process_subdir then
            logger DEBUG (ProcessingSubdirectory child) ;;
            subdir_children <- walk child c ;;
            iterdir walk directory process_subdir es'
              (files ++ subdir_children)%list
          else
            logger INFO (IgnoringSubdirectory child directory) ;;
            iterdir walk directory process_subdir es' files
      | File _ _ =>
          logger DEBUG (ChildIsFile child) ;;
          iterdir walk directory process_subdir es' (files ++ [child])%list
      | Special _ => raise (could_not_recognize child directory)
      end
  end.

(** The body of [list_files] for a [directory] that resolves to the node
    [n]; the recursive call on a child directory resolves to the child's
    node, so the recursion goes down the tree. *)
Fixpoint list_files_at (directory : Path) (n : node) (process_subdir : bool)
    {struct n} : M (list Path) :=
  logger DEBUG (ProcessingDirectory directory) ;;
  match n with
  | Dir _ es =>
      iterdir (fun child c => list_files_at child c process_subdir)
        directory process_subdir es []
  | _ => raise (cannot_process directory)
  end.

Definition list_files (directory : Path) (process_subdir : bool)
    : M (list Path) :=
  match FS.locate (fs env) directory with
  | Some n => list_files_at directory n process_subdir
  | None =>
      logger DEBUG (ProcessingDirectory directory) ;;
      raise (cannot_process directory)
  end.

(** ** [upload_file_from_path] *)

(** [path.stat().st_size * 1e-6]. *)
Definition megabytes (st_size : Z) : PyFloat.float :=
  PyFloat.mul (PyFloat.of_int st_size) PyFloat.lit_1e_6.

(** The test [path.stat().st_size * 1e-6 <= filesize_limit]. *)
Definition within_limit (st_size : Z) (filesize_limit : PyFloat.float) : bool :=
  PyFloat.leb (megabytes st_size) filesize_limit.

Definition caption (path : Path) (now : string) : string :=
  "Uploaded from " ++ dquote ++ PyPath.str (FS.absolute (fs env) path)
    ++ " at " ++ now.

Definition too_large (path : Path) (st_size : Z)
    (filesize_limit : PyFloat.float) : exn :=
  ValueError ("Cannot upload file from path " ++ dquote ++ PyPath.str path
    ++ dquote ++ " with filesize " ++ PyFloat.repr (megabytes st_size)
    ++ " MB as it is larger than threshold " ++ PyFloat.repr filesize_limit
    ++ " MB").

(** [client.upload_file(f, caption=...)]: the request is recorded and
    answered by the client. *)
Definition client_upload_file (path : Path) : M Response :=
  fun w =>
    let cap := caption path (strftime_now env (calls w)) in
    (upload_file env (calls w) path cap,
     {| calls := calls w ++ [(path, cap)]; log := log w |}).

Definition upload_file_from_path (path : Path)
    (filesize_limit : PyFloat.float) : M Response :=
  st_size <- lift (FS.stat_size (fs env) path) ;;
  if within_limit st_size filesize_limit then
    st_size' <- lift (FS.stat_size (fs env) path) ;;
    logger DEBUG (UploadingFile path (megabytes st_size')) ;;
    lift (FS.open_rb (fs env) path) ;;
    upload_response <- client_upload_file path ;;
    logger INFO (UploadedFile path upload_response) ;;
    ret upload_response
  else
    st_size' <- lift (FS.stat_size (fs env) path) ;;
    raise (too_large path st_size' filesize_limit).

(** ** The script body ([__main__]) *)

(** The command-line arguments the document depends on. *)
Record Args : Type := {
  path : Path;                      (* [path] *)
  ignore : option string;           (* [--ignore] *)
  max_filesize : PyFloat.float      (* [--max_filesize], default [2.0] *)
}.

(** The value of [ignore_files]: the empty list, or the string given to
    [--ignore]. *)
Inductive ignore_files_t : Type :=
| IgnoreList (l : list string)
| IgnoreStr (s : string).

Definition ignore_files (args : Args) : ignore_files_t :=
  match ignore args with
  | None => IgnoreList []
  | Some s => IgnoreStr s
  end.

(** [x in c]: membership in a list, containment in a string. *)
Definition py_in (x : string) (c : ignore_files_t) : bool :=
  match c with
  | IgnoreList l => List.existsb (String.eqb x) l
  | IgnoreStr s => PyStr.contains x s
  end.

(** The local variables of the script that the loops update. *)
Record locals : Type := { document : string; uploaded_files : list Response }.

Definition add_document (l : locals) (s : string) : locals :=
  {| document := document l ++ s; uploaded_files := uploaded_files l |}.

Definition append_uploaded (l : locals) (r : Response) : locals :=
  {| document := document l; uploaded_files := uploaded_files l ++ [r] |}.

Definition document_head (args : Args) : string :=
  "<h1>Autogenerated document for " ++ PyPath.str (path args) ++ "</h1>"
    ++ newline
    ++ "<h2>List of files</h2>" ++ newline
    ++ "<div>" ++ newline ++ "<ul>" ++ newline ++ tab.

(** The list entry written in the [except] branch. *)
Definition failed_entry (args : Args) (file : Path) (st_size : Z) : string :=
  "<li>" ++ PyPath.str file ++ " (" ++ PyFloat.repr (megabytes st_size)
    ++ " MB > " ++ PyFloat.repr (max_filesize args) ++ " MB) </li>"
    ++ newline.

(** The list entry written in the [else] branch. *)
Definition uploaded_entry (file : Path) (uploaded_file : Response) : string :=
  "<li>" ++ PyPath.str file ++ ": <fileId=" ++ id uploaded_file ++ "></li>"
    ++ newline.

(** One turn of the upload loop. *)
Definition upload_step (args : Args) (file : Path) (l : locals) : M locals :=
  if py_in (PyPath.suffix file) (ignore_files args) then
    logger DEBUG (IgnoringFiletype file) ;;
    ret l
  else
    try_except_else
      (uploaded_file <- upload_file_from_path file (max_filesize args) ;;
       ret (uploaded_file, append_uploaded l uploaded_file))
      (fun e =>
         logger INFO (IgnoringFileDueToError file e) ;;
         st_size <- lift (FS.stat_size (fs env) file) ;;
         ret (add_document l (failed_entry args file st_size)))
      (fun '(uploaded_file, l') =>
         ret (add_document l' (uploaded_entry file uploaded_file))).

Fixpoint upload_loop (args : Args) (files : list Path) (l : locals)
    : M locals :=
  match files with
  | [] => ret l
  | file :: files' =>
      l' <- upload_step args file l ;;
      upload_loop args files' l'
  end.

Definition manifest_tail : string :=
  "</ul>" ++ newline ++ "</div>" ++ newline.

Definition content_block (file : Path) (html : string) : string :=
  "<hr>```" ++ PyPath.str file ++ "```" ++ newline ++ html ++ newline
    ++ "<hr>".

(** One turn of the content loop. *)
Definition content_step (file : Path) (l : locals) : M locals :=
  try_except_else
    (html <- file2html file ;;
     ret (add_document l (content_block file html)))
    (fun e =>
       logger ERROR (ContentError e) ;;
       logger INFO (DidNotAppend file) ;;
       ret l)
    ret.

Fixpoint content_loop (files : list Path) (l : locals) : M locals :=
  match files with
  | [] => ret l
  | file :: files' =>
      l' <- content_step file l ;;
      content_loop files' l'
  end.

(** The script from the walk to the finished document text (the call of
    [client.create_document] that follows hands the text on unchanged). *)
Definition main (args : Args) : M string :=
  files <- list_files (path args) true ;;
  let l := {| document := document_head args; uploaded_files := [] |} in
  logger DEBUG UploadingFiles ;;
  l <- upload_loop args files l ;;
  let l := add_document l manifest_tail in
  l <- content_loop files l ;;
  ret (document l).

End DocumentFromExperiment.

(* ================================================================== *)
(** * [scripts/create_document.py]: conversion of the source file *)

Section CreateDocument.

Variable env : Env.

(** The extensions the script passes to [markdown.markdown]. *)
Definition source_extensions : list string :=
  ["tables"; "sane_lists"; "fenced_code"; "pymdownx.arithmatex"].

(** The text of the document for [--source source]. *)
Definition source_text (source : option Path) : result string :=
  match source with
  | None => Ok ""
  | Some src =>
      match FS.read_text (fs env) src with
      | Raise e => Raise e
      | Ok text =>
          if String.eqb (PyPath.suffix src) ".md" then
            Ok (markdown_markdown env text source_extensions)
          else if String.eqb (PyPath.suffix src) ".json" then
            json2html_convert env text
          else Ok text
      end
  end.

End CreateDocument.

(* ================================================================== *)
(** * Facts about strings and floats *)

Module PyStrFacts.

Lemma append_assoc (a b c : string) : (a ++ b) ++ c = a ++ (b ++ c).
Proof. induction a as [|x a IH]; simpl; [reflexivity | now rewrite IH]. Qed.

Lemma append_empty_r (a : string) : a ++ "" = a.
Proof. induction a as [|x a IH]; simpl; [reflexivity | now rewrite IH]. Qed.

Lemma length_append (a b : string) :
  String.length (a ++ b) = (String.length a + String.length b)%nat.
Proof. induction a as [|x a IH]; simpl; [reflexivity | now rewrite IH]. Qed.

(** Nothing but the empty string can be appended without a change. *)
Lemma append_same_empty (a b : string) : a ++ b = a -> b = "".
Proof.
  intros H. apply (f_equal String.length) in H.
  rewrite length_append in H.
  destruct b; [reflexivity | simpl in H; lia].
Qed.

Lemma prefix_split (sub s : string) :
  String.prefix sub s = true <-> exists b, s = sub ++ b.
Proof.
  revert s. induction sub as [|x sub IH]; intros s.
  - split; [intros _; exists s; reflexivity | intros _; now destruct s].
  - destruct s as [|y s]; simpl.
    + split; [discriminate | intros [b Hb]; discriminate].
    + destruct (ascii_dec x y) as [->|Hxy].
      * rewrite IH. split; intros [b Hb]; exists b; [now rewrite Hb | now inversion Hb].
      * split; [discriminate | intros [b Hb]; congruence].
Qed.

(** [contains] is the substring relation: Python's [sub in s]. *)
Lemma contains_split (sub s : string) :
  PyStr.contains sub s = true <-> exists a b, s = a ++ sub ++ b.
Proof.
  induction s as [|y s IH].
  - cbn [PyStr.contains]. destruct (String.prefix sub "") eqn:Hp.
    + split; [intros _ | reflexivity].
      apply prefix_split in Hp as [b Hb]. exists "", b. exact Hb.
    + split; [discriminate | intros [a [b Hab]]].
      destruct a; [|discriminate]. simpl in Hab.
      assert (String.prefix sub "" = true) by (apply prefix_split; now exists b).
      congruence.
  - cbn [PyStr.contains]. destruct (String.prefix sub (String y s)) eqn:Hp.
    + split; [intros _ | reflexivity].
      apply prefix_split in Hp as [b Hb]. exists "", b. exact Hb.
    + rewrite IH. split.
      * intros [a [b Hab]]. exists (String y a), b. simpl. now rewrite Hab.
      * intros [a [b Hab]]. destruct a as [|x a].
        -- simpl in Hab.
           assert (String.prefix sub (String y s) = true)
             by (apply prefix_split; now exists b).
           congruence.
        -- simpl in Hab. inversion Hab. now exists a, b.
Qed.

Lemma contains_empty (s : string) : PyStr.contains "" s = true.
Proof. apply contains_split. exists "", s. reflexivity. Qed.

End PyStrFacts.

Module PyFloatFacts.

(** [x < y] excludes [y <= x], also when an operand is [nan] or an
    infinity. *)
Lemma ltb_not_leb (x y : PyFloat.float) :
  PyFloat.ltb x y = true -> PyFloat.leb y x = false.
Proof.
  unfold PyFloat.ltb, PyFloat.leb, SFltb, SFleb.
  destruct x as [sx|sx| |sx mx ex], y as [sy|sy| |sy my ey]; simpl;
    try discriminate; try (destruct sx; discriminate);
    try (destruct sy; discriminate);
    try (destruct sx, sy; (discriminate || reflexivity)).
  destruct sx, sy; try discriminate; try reflexivity;
    rewrite (Z.compare_antisym ex ey);
    destruct (ex ?= ey)%Z; simpl; try discriminate; try reflexivity;
    change (PosDef.Pos.compare_cont Eq my mx) with (Pos.compare my mx);
    change (PosDef.Pos.compare_cont Eq mx my) with (Pos.compare mx my);
    rewrite (Pos.compare_antisym mx my);
    destruct (mx ?= my)%positive; simpl; try discriminate; reflexivity.
Qed.

End PyFloatFacts.

(* ================================================================== *)
(** * The upload loop *)

Definition add_log (w : world) (ms : list (level * message)) : world :=
  {| calls := calls w; log := log w ++ ms |}.

Definition add_call (w : world) (c : upload_call) : world :=
  {| calls := calls w ++ [c]; log := log w |}.

(** The files of a walk that the upload loop does not skip. *)
Definition skipped (args : Args) (file : Path) : bool :=
  py_in (PyPath.suffix file) (ignore_files args).

Definition listed (args : Args) (files : list Path) : list Path :=
  List.filter (fun file => negb (skipped args file)) files.

(** A list entry of the manifest for [file]: the one of the [except]
    branch, with the size of the file, or the one of the [else] branch, with
    the response of an upload. *)
Inductive manifest_entry (env : Env) (args : Args) (file : Path)
  : string -> Prop :=
| entry_failed (st_size : Z) :
    FS.stat_size (fs env) file = Ok st_size ->
    manifest_entry env args file (failed_entry args file st_size)
| entry_uploaded (uploaded_file : Response) :
    manifest_entry env args file (uploaded_entry file uploaded_file).

Section UploadFacts.

Variable env : Env.
Variable args : Args.

Lemma exists_stat_size (file : Path) :
  FS.exists_ (fs env) file = true ->
  exists st_size, FS.stat_size (fs env) file = Ok st_size.
Proof.
  unfold FS.exists_, FS.stat_size.
  destruct (FS.locate (fs env) file) as [[sz t|sz es|[sz|]]|];
    cbn [FS.node_size]; (discriminate || eauto).
Qed.



(** Within the limit: one request to the client, whose answer is the
    answer of the function. *)
Lemma upload_file_from_path_within (file : Path) (limit : PyFloat.float)
    (st_size : Z) (w : world) :
  FS.stat_size (fs env) file = Ok st_size ->
  FS.open_rb (fs env) file = Ok tt ->
  within_limit st_size limit = true ->
  let cap := caption env file (strftime_now env (calls w)) in
  let w1 :=
    add_call (add_log w [(DEBUG, UploadingFile file (megabytes st_size))])
             (file, cap) in
  upload_file_from_path env file limit w
  = match upload_file env (calls w) file cap with
    | Ok r => (Ok r, add_log w1 [(INFO, UploadedFile file r)])
    | Raise e => (Raise e, w1)
    end.
Proof.
  intros Hs Ho Hl. unfold upload_file_from_path, bind, lift, logger.
  rewrite Hs, Hl, Ho. unfold client_upload_file. cbn [calls log].
  destruct (upload_file env (calls w) file _); reflexivity.
Qed.

Lemma upload_step_skipped (file : Path) (l : locals) (w : world) :
  skipped args file = true ->
  upload_step env args file l w
  = (Ok l, add_log w [(DEBUG, IgnoringFiletype file)]).
Proof.
  unfold skipped, upload_step. intros ->. reflexivity.
Qed.

Lemma upload_step_raised (file : Path) (l : locals) (w w' : world)
    (e : exn) (st_size : Z) :
  skipped args file = false ->
  FS.stat_size (fs env) file = Ok st_size ->
  upload_file_from_path env file (max_filesize args) w = (Raise e, w') ->
  upload_step env args file l w
  = (Ok (add_document l (failed_entry args file st_size)),
     add_log w' [(INFO, IgnoringFileDueToError file e)]).
Proof.
  unfold skipped, upload_step. intros -> Hs Hu.
  unfold try_except_else, bind. rewrite Hu.
  unfold logger, lift, ret. cbn. rewrite Hs. reflexivity.
Qed.

Lemma upload_step_returned (file : Path) (l : locals) (w w' : world)
    (r : Response) :
  skipped args file = false ->
  upload_file_from_path env file (max_filesize args) w = (Ok r, w') ->
  upload_step env args file l w
  = (Ok (add_document (append_uploaded l r) (uploaded_entry file r)), w').
Proof.
  unfold skipped, upload_step. intros -> Hu.
  unfold try_except_else, bind. rewrite Hu. reflexivity.
Qed.

(** A turn of the loop never raises for a file that exists; it appends
    nothing for a skipped file and one entry otherwise. *)
Lemma upload_step_total (file : Path) (l : locals) (w : world) :
  FS.exists_ (fs env) file = true ->
  exists l' w' s,
    upload_step env args file l w = (Ok l', w')
    /\ document l' = document l ++ s
    /\ (if skipped args file then s = ""
        else manifest_entry env args file s).
Proof.
  intros Hex. destruct (exists_stat_size file Hex) as [sz Hs].
  destruct (skipped args file) eqn:Hsk.
  - exists l, (add_log w [(DEBUG, IgnoringFiletype file)]), "".
    split; [now apply upload_step_skipped|].
    split; [now rewrite PyStrFacts.append_empty_r | reflexivity].
  - destruct (upload_file_from_path env file (max_filesize args) w)
      as [[r|e] w'] eqn:Hu.
    + eexists _, w', _. split; [eapply upload_step_returned; eassumption|].
      split; [reflexivity | constructor].
    + eexists _, _, _. split; [eapply upload_step_raised; eassumption|].
      split; [reflexivity | now constructor].
Qed.

Lemma upload_loop_app (pre post : list Path) (l : locals) (w : world) :
  upload_loop env args (pre ++ post) l w
  = match upload_loop env args pre l w with
    | (Ok l1, w1) => upload_loop env args post l1 w1
    | (Raise e, w1) => (Raise e, w1)
    end.
Proof.
  revert l w. induction pre as [|file pre IH]; intros l w; [reflexivity|].
  cbn [app upload_loop]. unfold bind.
  destruct (upload_step env args file l w) as [[l1|e] w1]; [apply IH | reflexivity].
Qed.

(** The loop over files that exist never raises, and what it appends to
    the document is one entry for each file it does not skip, in the order
    of the files. *)
Lemma upload_loop_entries (files : list Path) (l : locals) (w : world) :
  Forall (fun file => FS.exists_ (fs env) file = true) files ->
  exists l' w' entries,
    upload_loop env args files l w = (Ok l', w')
    /\ document l' = document l ++ String.concat "" entries
    /\ Forall2 (manifest_entry env args) (listed args files) entries.
Proof.
  intros Hall. revert l w.
  induction Hall as [|file files Hex _ IH]; intros l w.
  - exists l, w, []. cbn. rewrite PyStrFacts.append_empty_r. auto.
  - destruct (upload_step_total file l w Hex) as (l1 & w1 & s & Hstep & Hdoc & Hs).
    destruct (IH l1 w1) as (l' & w' & entries & Hloop & Hdoc' & Hent).
    cbn [upload_loop]. unfold bind. rewrite Hstep.
    unfold listed. cbn [List.filter]. fold (listed args files).
    destruct (skipped args file); cbn [negb].
    + exists l', w', entries. subst s.
      rewrite PyStrFacts.append_empty_r in Hdoc. rewrite Hdoc', Hdoc. auto.
    + exists l', w', (s :: entries). split; [exact Hloop|]. split.
      * rewrite Hdoc', Hdoc, PyStrFacts.append_assoc. f_equal.
        destruct entries; cbn; [now rewrite PyStrFacts.append_empty_r | reflexivity].
      * now constructor.
Qed.

End UploadFacts.

(* ================================================================== *)
(** * The content loop *)

(** What the content loop appends for [file]: the block around the html of
    the file when [file2html] returns, nothing when it raises. *)
Inductive content_fragment (env : Env) (file : Path) : string -> Prop :=
| fragment_block (html : string) (w w' : world) :
    file2html env file w = (Ok html, w') ->
    content_fragment env file (content_block file html)
| fragment_nothing (e : exn) (w w' : world) :
    file2html env file w = (Raise e, w') ->
    content_fragment env file "".

Section ContentFacts.

Variable env : Env.

Lemma concat_cons (s : string) (l : list string) :
  String.concat "" (s :: l) = s ++ String.concat "" l.
Proof.
  destruct l; cbn; [now rewrite PyStrFacts.append_empty_r | reflexivity].
Qed.

Lemma concat_app (l1 l2 : list string) :
  String.concat "" (l1 ++ l2)
  = String.concat "" l1 ++ String.concat "" l2.
Proof.
  induction l1 as [|s l1 IH]; [reflexivity|].
  change ((s :: l1) ++ l2)%list with (s :: (l1 ++ l2))%list.
  now rewrite !concat_cons, IH, PyStrFacts.append_assoc.
Qed.

Lemma content_step_raised (file : Path) (l : locals) (w w' : world)
    (e : exn) :
  file2html env file w = (Raise e, w') ->
  content_step env file l w
  = (Ok l, add_log (add_log w' [(ERROR, ContentError e)])
                   [(INFO, DidNotAppend file)]).
Proof.
  intros H. unfold content_step, try_except_else, bind. rewrite H.
  reflexivity.
Qed.

Lemma content_step_returned (file : Path) (l : locals) (w w' : world)
    (html : string) :
  file2html env file w = (Ok html, w') ->
  content_step env file l w
  = (Ok (add_document l (content_block file html)), w').
Proof.
  intros H. unfold content_step, try_except_else, bind. rewrite H.
  reflexivity.
Qed.

(** A turn of the content loop never raises. *)
Lemma content_step_total (file : Path) (l : locals) (w : world) :
  exists l' w' s,
    content_step env file l w = (Ok l', w')
    /\ document l' = document l ++ s
    /\ content_fragment env file s.
Proof.
  destruct (file2html env file w) as [[html|e] w'] eqn:H.
  - eexists _, _, _. split; [eapply content_step_returned; eassumption|].
    split; [reflexivity | econstructor; eassumption].
  - eexists _, _, "". split; [eapply content_step_raised; eassumption|].
    split; [now rewrite PyStrFacts.append_empty_r|].
    eapply fragment_nothing; eassumption.
Qed.

Lemma content_loop_app (pre post : list Path) (l : locals) (w : world) :
  content_loop env (pre ++ post) l w
  = match content_loop env pre l w with
    | (Ok l1, w1) => content_loop env post l1 w1
    | (Raise e, w1) => (Raise e, w1)
    end.
Proof.
  revert l w. induction pre as [|file pre IH]; intros l w; [reflexivity|].
  cbn [app content_loop]. unfold bind.
  destruct (content_step env file l w) as [[l1|e] w1]; [apply IH | reflexivity].
Qed.

(** The content loop never raises, and what it appends to the document
    is the fragment of each file, in the order of the files. *)
Lemma content_loop_fragments (files : list Path) (l : locals) (w : world) :
  exists l' w' blocks,
    content_loop env files l w = (Ok l', w')
    /\ document l' = document l ++ String.concat "" blocks
    /\ Forall2 (content_fragment env) files blocks.
Proof.
  revert l w. induction files as [|file files IH]; intros l w.
  - exists l, w, []. cbn. rewrite PyStrFacts.append_empty_r. auto.
  - destruct (content_step_total file l w) as (l1 & w1 & s & Hstep & Hdoc & Hs).
    destruct (IH l1 w1) as (l' & w' & blocks & Hloop & Hdoc' & Hbl).
    exists l', w', (s :: blocks). cbn [content_loop]. unfold bind.
    rewrite Hstep. split; [exact Hloop|]. split; [|now constructor].
    now rewrite Hdoc', Hdoc, PyStrFacts.append_assoc, concat_cons.
Qed.

End ContentFacts.

(* ================================================================== *)
(** * The walk *)

Definition is_regular (n : node) : bool :=
  match n with File _ _ => true | _ => false end.

Definition is_special (n : node) : bool :=
  match n with Special _ => true | _ => false end.

(** The regular files directly inside a directory with entries [es], as
    paths below [directory], in the order of the entries. *)
Definition direct_files (directory : Path) (es : list (string * node))
  : list Path :=
  List.map (fun e => PyPath.child directory (fst e))
           (List.filter (fun e => is_regular (snd e)) es).

Section WalkFacts.

Variable env : Env.

(** Without recursion the loop over the entries adds the regular files
    among them, whatever [walk] is, as long as every entry is a regular
    file or a directory. *)
Lemma iterdir_flat (walk : Path -> node -> M (list Path))
    (directory : Path) (es : list (string * node)) :
  Forall (fun e => is_special (snd e) = false) es ->
  forall (files : list Path) (w : world),
  exists w',
    iterdir env walk directory false es files w
    = (Ok (files ++ direct_files directory es)%list, w')
    /\ calls w' = calls w.
Proof.
  induction 1 as [|[nm c] es Hc _ IH]; intros files w.
  - exists w. unfold direct_files. cbn. now rewrite app_nil_r.
  - cbn [iterdir]. unfold bind, logger. destruct c as [sz t|sz sub|sz].
    + edestruct IH as (w' & Heq & Hcalls). exists w'.
      rewrite Heq. unfold direct_files. cbn.
      rewrite <- app_assoc. split; [reflexivity | exact Hcalls].
    + edestruct IH as (w' & Heq & Hcalls). exists w'.
      rewrite Heq. split; [reflexivity | exact Hcalls].
    + discriminate.
Qed.

(** An entry that is neither a file nor a directory ends the loop with an
    exception, wherever it stands. *)
Lemma iterdir_special (walk : Path -> node -> M (list Path))
    (directory : Path) (process_subdir : bool) (nm : string) (sz : option Z)
    (es : list (string * node)) (files : list Path) (w : world) :
  iterdir env walk directory process_subdir ((nm, Special sz) :: es) files w
  = (Raise (could_not_recognize env (PyPath.child directory nm) directory),
     add_log w [(DEBUG, ProcessingChild (PyPath.child directory nm) directory)]).
Proof. reflexivity. Qed.

End WalkFacts.

(** ** Every walked path is a regular file *)

(** Entry names are unique in every directory of the tree. *)
Fixpoint unique_names (n : node) : Prop :=
  match n with
  | Dir _ es =>
      NoDup (List.map fst es)
      /\ (fix all (es : list (string * node)) : Prop :=
            match es with
            | [] => True
            | (_, c) :: es' => unique_names c /\ all es'
            end) es
  | _ => True
  end.

Lemma unique_names_dir (sz : Z) (es : list (string * node)) :
  unique_names (Dir sz es) ->
  NoDup (List.map fst es) /\ Forall (fun e => unique_names (snd e)) es.
Proof.
  cbn [unique_names]. intros [Hnd Hall]. split; [exact Hnd|].
  clear Hnd. induction es as [|[nm c] es IH]; constructor.
  - exact (proj1 Hall).
  - exact (IH (proj2 Hall)).
Qed.

Lemma node_nested_ind (P : node -> Prop) :
  (forall sz t, P (File sz t)) ->
  (forall sz, P (Special sz)) ->
  (forall sz es, Forall (fun e => P (snd e)) es -> P (Dir sz es)) ->
  forall n, P n.
Proof.
  intros HF HS HD. fix IH 1. intros [sz t|sz es|sz]; [apply HF| |apply HS].
  apply HD. induction es as [|[nm c] es IHes]; constructor; [apply IH | exact IHes].
Qed.

Lemma assoc_unique (nm : string) (c : node) (es : list (string * node)) :
  NoDup (List.map fst es) -> In (nm, c) es -> FS.assoc nm es = Some c.
Proof.
  induction es as [|[nm' c'] es IH]; intros Hnd Hin; [contradiction|].
  cbn [List.map fst] in Hnd. inversion Hnd as [|? ? Hnot Hnd']; subst.
  cbn [FS.assoc]. destruct Hin as [Heq|Hin].
  - inversion Heq; subst. now rewrite String.eqb_refl.
  - destruct (String.eqb_spec nm nm') as [->|_]; [|now apply IH].
    exfalso. apply Hnot. apply in_map_iff. now exists (nm', c).
Qed.

(** [directory] followed by the further components [rest]. *)
Definition below (directory : Path) (rest : list string) : Path :=
  {| anchored := anchored directory; parts := parts directory ++ rest |}.

(** [p] is the path, below [directory], of a regular file of the tree [n]
    that [directory] stands for. *)
Definition file_below (directory : Path) (n : node) (p : Path) : Prop :=
  exists rest sz t, p = below directory rest /\ FS.resolve n rest = Some (File sz t).

Section WalkSound.
Variable env : Env.

Lemma below_child (directory : Path) (nm : string) (rest : list string) :
  below (PyPath.child directory nm) rest = below directory (nm :: rest).
Proof.
  unfold below, PyPath.child. cbn [anchored parts]. now rewrite <- app_assoc.
Qed.

Lemma iterdir_sound (walk : Path -> node -> M (list Path))
    (directory : Path) (process_subdir : bool) (sz0 : Z)
    (all : list (string * node)) :
  NoDup (List.map fst all) ->
  (forall nm c w files w',
     In (nm, c) all ->
     walk (PyPath.child directory nm) c w = (Ok files, w') ->
     Forall (file_below (PyPath.child directory nm) c) files) ->
  forall es files w out w',
    incl es all ->
    Forall (file_below directory (Dir sz0 all)) files ->
    iterdir env walk directory process_subdir es files w = (Ok out, w') ->
    Forall (file_below directory (Dir sz0 all)) out.
Proof.
  intros Hnd Hwalk. induction es as [|[nm c] es IH]; intros files w out w' Hincl Hfiles Hrun.
  - cbn in Hrun. injection Hrun as <- _. exact Hfiles.
  - assert (Hin : In (nm, c) all) by (apply Hincl; now left).
    assert (Hincl' : incl es all) by (intros x Hx; apply Hincl; now right).
    pose proof (assoc_unique nm c all Hnd Hin) as Hassoc.
    cbn [iterdir] in Hrun. unfold bind, logger in Hrun.
    destruct c as [sz t|sz sub|sz].
    + eapply IH; [exact Hincl' | | exact Hrun].
      apply Forall_app. split; [exact Hfiles|]. constructor; [|constructor].
      exists [nm], sz, t. split; [reflexivity|]. cbn. now rewrite Hassoc.
    + destruct process_subdir.
      * destruct (walk (PyPath.child directory nm) (Dir sz sub) _)
          as [[children|e] w1] eqn:Hw; [|discriminate].
        eapply IH; [exact Hincl' | | exact Hrun].
        apply Forall_app. split; [exact Hfiles|].
        eapply Forall_impl; [|eapply Hwalk; eassumption].
        intros p (rest & sz' & t' & -> & Hres).
        exists (nm :: rest), sz', t'. split; [apply below_child|].
        cbn [FS.resolve]. now rewrite Hassoc.
      * eapply IH; [exact Hincl' | exact Hfiles | exact Hrun].
    + discriminate.
Qed.

Lemma list_files_at_sound (n : node) :
  unique_names n ->
  forall directory process_subdir w files w',
    list_files_at env directory n process_subdir w = (Ok files, w') ->
    Forall (file_below directory n) files.
Proof.
  induction n as [sz t|sz|sz es IH] using node_nested_ind;
    intros Hu directory process_subdir w files w' Hrun;
    try (cbn in Hrun; discriminate).
  apply unique_names_dir in Hu as [Hnd Hall].
  cbn [list_files_at] in Hrun. unfold bind at 1 in Hrun. unfold logger at 1 in Hrun.
  eapply (iterdir_sound _ directory process_subdir sz es Hnd);
    [ | apply incl_refl | constructor | exact Hrun].
  intros nm c w1 files1 w1' Hin Hw.
  rewrite Forall_forall in IH, Hall.
  exact (IH (nm, c) Hin (Hall (nm, c) Hin) _ _ _ _ _ Hw).
Qed.

Lemma resolve_app (n : node) (ps rest : list string) (c : node) :
  FS.resolve n ps = Some c ->
  FS.resolve n (ps ++ rest) = FS.resolve c rest.
Proof.
  revert n. induction ps as [|nm ps IH]; intros n H.
  - cbn in H. injection H as ->. reflexivity.
  - cbn [FS.resolve app] in *. destruct n as [| sz es |]; try discriminate.
    destruct (FS.assoc nm es) as [c'|]; [now apply IH | discriminate].
Qed.

(** Every path a walk returns is a regular file of the file system. *)
Lemma list_files_are_files (directory : Path) (process_subdir : bool)
    (w : world) (files : list Path) (w' : world) :
  unique_names (root (fs env)) ->
  list_files env directory process_subdir w = (Ok files, w') ->
  Forall (fun f => FS.is_file (fs env) f = true) files.
Proof.
  intros Hu Hrun. unfold list_files in Hrun.
  destruct (FS.locate (fs env) directory) as [n|] eqn:Hloc; [|discriminate].
  assert (Hun : unique_names n).
  { unfold FS.locate in Hloc. revert Hloc Hu.
    generalize (parts (FS.absolute (fs env) directory)) (root (fs env)).
    intros ps. induction ps as [|nm ps IH]; intros r Hres Hur.
    - cbn in Hres. now injection Hres as <-.
    - cbn [FS.resolve] in Hres. destruct r as [|sz es|]; try discriminate.
      destruct (FS.assoc nm es) as [c|] eqn:Ha; [|discriminate].
      apply (IH c Hres). apply unique_names_dir in Hur as [_ Hall].
      rewrite Forall_forall in Hall.
      assert (Hin : In (nm, c) es).
      { clear -Ha. induction es as [|[nm' c'] es IHes]; [discriminate|].
        cbn in Ha. destruct (String.eqb_spec nm nm') as [->|_].
        - injection Ha as ->. now left.
        - right. now apply IHes. }
      exact (Hall (nm, c) Hin). }
  eapply Forall_impl; [|exact (list_files_at_sound n Hun _ _ _ _ _ Hrun)].
  intros p (rest & sz & t & -> & Hres).
  unfold FS.is_file, FS.locate.
  assert (Hparts : parts (FS.absolute (fs env) (below directory rest))
                   = (parts (FS.absolute (fs env) directory) ++ rest)%list).
  { unfold FS.absolute, below. cbn [anchored parts].
    destruct (anchored directory); cbn [parts]; [reflexivity | now rewrite app_assoc]. }
  rewrite Hparts. unfold FS.locate in Hloc.
  now rewrite (resolve_app _ _ rest n Hloc), Hres.
Qed.

End WalkSound.

(* ================================================================== *)
(** * A sample experiment directory *)

Module Sample.

Definition rel (ps : list string) : Path :=
  {| anchored := false; parts := ps |}.

(** [{"a":] : a json text that is cut short. *)
Definition cut_json : string := "{" ++ dquote ++ "a" ++ dquote ++ ":".

(** The directory [/home/u/exp]. *)
Definition exp_entries : list (string * node) :=
  [ ("a.md", File 20 (Ok "| x | y |"));
    ("b.json", File 11 (Ok "{}"));
    ("c.txt", File 2000000 (Ok "plain"));
    ("d.bin", File 5000000 (Raise (UnicodeDecodeError "invalid start byte")));
    ("sub", Dir 4096 [("e.txt", File 3 (Ok "abc"))]);
    ("notes.log", File 300 (Ok "done"));
    ("README", File 12 (Ok "hello"));
    ("cut.json", File 5 (Ok cut_json)) ].

(** The directory [/home/u/odd], which holds a FIFO. *)
Definition odd_entries : list (string * node) :=
  [ ("a.txt", File 1 (Ok "x")); ("pipe", Special (Some 0)) ].

Definition tree : node :=
  Dir 4096 [("home", Dir 4096 [("u", Dir 4096
    [("exp", Dir 4096 exp_entries); ("odd", Dir 4096 odd_entries)])])].

Definition unavailable : exn := ClientError "503 Service Unavailable".

(** A client that fails on [b.json] and numbers the other uploads; a
    markdown converter that shows the extensions it was given; a json
    converter that accepts the empty object only. *)
Definition env : Env :=
  {| fs := {| cwd := ["home"; "u"]; root := tree |};
     upload_file := fun earlier p _ =>
       if String.eqb (PyPath.name p) "b.json" then Raise unavailable
       else Ok {| id := PyStr.of_int (100 + Z.of_nat (List.length earlier)) |};
     strftime_now := fun earlier =>
       "2024-11-05 12:00:0" ++ PyStr.of_int (Z.of_nat (List.length earlier));
     markdown_markdown := fun text extensions =>
       "<markdown extensions=" ++ PyStr.join "," extensions ++ ">" ++ text;
     json2html_convert := fun text =>
       if String.eqb text "{}" then Ok "<table></table>"
       else Raise (ValueError "Expecting property name") |}.

Definition exp : Path := rel ["exp"].
Definition odd : Path := rel ["odd"].
Definition a_md : Path := rel ["exp"; "a.md"].
Definition b_json : Path := rel ["exp"; "b.json"].
Definition c_txt : Path := rel ["exp"; "c.txt"].
Definition d_bin : Path := rel ["exp"; "d.bin"].
Definition notes_log : Path := rel ["exp"; "notes.log"].
Definition readme : Path := rel ["exp"; "README"].
Definition cut_json_file : Path := rel ["exp"; "cut.json"].

(** [exp], no [--ignore], the default limit. *)
Definition args : Args :=
  {| path := exp; ignore := None; max_filesize := PyFloat.lit_2_0 |}.

(** [exp --ignore .log]. *)
Definition args_ignore_log : Args :=
  {| path := exp; ignore := Some ".log"; max_filesize := PyFloat.lit_2_0 |}.

(** [exp --ignore .mdx]. *)
Definition args_ignore_mdx : Args :=
  {| path := exp; ignore := Some ".mdx"; max_filesize := PyFloat.lit_2_0 |}.

Definition l0 : locals :=
  {| document := document_head args; uploaded_files := [] |}.

Definition w0 : world := {| calls := []; log := [] |}.

End Sample.

(* ================================================================== *)
(** * A directory of edge cases *)

Module EdgeSample.

(** The directory [/data]: files of two megabytes, of one byte more and of
    two mebibytes, and a dangling link. *)
Definition entries : list (string * node) :=
  [ ("exact.bin", File 2000000 (Ok "x"));
    ("over.bin", File 2000001 (Ok "x"));
    ("mib.bin", File (2 * 2 ^ 20) (Ok "x"));
    ("link", Special None) ].

(** A client that accepts every upload. *)
Definition env : Env :=
  {| fs := {| cwd := []; root := Dir 4096 [("data", Dir 4096 entries)] |};
     upload_file := fun _ _ _ => Ok {| id := "7" |};
     strftime_now := fun _ => "2024-11-05 12:00:00";
     markdown_markdown := fun text _ => text;
     json2html_convert := fun text => Ok text |}.

Definition link : Path := Sample.rel ["data"; "link"].

(** [data], no [--ignore], the default limit. *)
Definition args : Args :=
  {| path := Sample.rel ["data"]; ignore := None;
     max_filesize := PyFloat.lit_2_0 |}.

End EdgeSample.

(* ================================================================== *)
(** * Properties of the pipeline *)

Lemma is_file_locate (env : Env) (file : Path) :
  FS.is_file (fs env) file = true ->
  exists st_size text, FS.locate (fs env) file = Some (File st_size text).
Proof.
  unfold FS.is_file.
  destruct (FS.locate (fs env) file) as [[sz t| |]|]; try discriminate.
  intros _. now exists sz, t.
Qed.

Lemma locate_file_stat (env : Env) (file : Path) (st_size : Z)
    (text : result string) :
  FS.locate (fs env) file = Some (File st_size text) ->
  FS.stat_size (fs env) file = Ok st_size
  /\ FS.open_rb (fs env) file = Ok tt
  /\ FS.exists_ (fs env) file = true.
Proof.
  intros H. unfold FS.stat_size, FS.open_rb, FS.exists_. rewrite H. auto.
Qed.


(** A file that passes the size test and on which the client raises [e]:
    the turn of the loop returns with the [except] entry appended, and [e]
    in the log. *)
Lemma upload_step_client_raised (env : Env) (args : Args) (file : Path)
    (st_size : Z) (e : exn) (l : locals) (w : world) :
  FS.is_file (fs env) file = true ->
  FS.stat_size (fs env) file = Ok st_size ->
  skipped args file = false ->
  within_limit st_size (max_filesize args) = true ->
  (forall earlier cap, upload_file env earlier file cap = Raise e) ->
  exists w',
    upload_step env args file l w
    = (Ok (add_document l (failed_entry args file st_size)), w')
    /\ In (INFO, IgnoringFileDueToError file e) (log w')
    /\ In file (List.map fst (calls w')).
Proof.
  intros Hf Hs Hsk Hl He.
  destruct (is_file_locate env file Hf) as (sz & t & Hloc).
  destruct (locate_file_stat env file sz t Hloc) as (Hs' & Ho & _).
  pose proof (upload_file_from_path_within env file (max_filesize args)
                st_size w Hs Ho Hl) as Hu.
  cbv zeta in Hu. rewrite He in Hu.
  eexists. split; [eapply upload_step_raised; eassumption|].
  cbn [log calls add_log add_call]. split.
  - apply in_or_app. right. now left.
  - rewrite map_app. apply in_or_app. right. now left.
Qed.











(** C3.  A file whose suffix is matched by the ignore value is left alone:
    the turn of the loop only reports the file through the logger (the
    record of the skip) and returns the local variables as they were; no
    upload is requested of the client, and neither the size of the file nor
    the limit is looked at, the result being the same for every file
    system, client and limit. *)
Theorem skipped_file_is_left_alone
    (env : Env) (args : Args) (file : Path) (l : locals) (w : world) :
  py_in (PyPath.suffix file) (ignore_files args) = true ->
  exists w',
    upload_step env args file l w = (Ok l, w')
    /\ calls w' = calls w
    /\ log w' = (log w ++ [(DEBUG, IgnoringFiletype file)])%list.
Proof.
  intros Hin. exists (add_log w [(DEBUG, IgnoringFiletype file)]).
  split; [now apply upload_step_skipped | split; reflexivity].
Qed.

Lemma skipped_file_is_left_alone_sample :
  exists w',
    upload_step Sample.env Sample.args_ignore_log Sample.notes_log
      Sample.l0 Sample.w0 = (Ok Sample.l0, w')
    /\ calls w' = []
    /\ log w' = [(DEBUG, IgnoringFiletype Sample.notes_log)].
Proof.
  apply (skipped_file_is_left_alone Sample.env Sample.args_ignore_log
           Sample.notes_log Sample.l0 Sample.w0).
  reflexivity.
Defined.







(** C5, as stated, fails: for [d.bin], which cannot be read as text, the
    turn of the content loop appends no block at all, delimited or not. *)
Lemma failed_content_has_no_block :
  ~ (exists l' w' block,
       content_step Sample.env Sample.d_bin Sample.l0 Sample.w0 = (Ok l', w')
       /\ document l' = document Sample.l0 ++ block
       /\ String.prefix "<hr>" block = true).
Proof.
  intros (l' & w' & block & Hrun & Hdoc & Hblock).
  vm_compute in Hrun. injection Hrun as <- _.
  symmetry in Hdoc. apply PyStrFacts.append_same_empty in Hdoc.
  subst block. discriminate.
Qed.

(** C5, amended.  When [file2html] raises [e] for a file of the walk
    [pre ++ file :: post] (the file cannot be read, or its json is
    refused), the turn of that file returns normally and leaves the document
    as it was: nothing is written at the place of the file, the failure
    goes to the logger only.  The content loop then goes on over [post], and
    the whole loop returns normally with a document that holds the blocks
    of the other files in walk order. *)
Theorem content_loop_omits_failed_file
    (env : Env) (pre post : list Path) (file : Path) (e : exn)
    (l : locals) (w : world) :
  (forall w0, exists w1, file2html env file w0 = (Raise e, w1)) ->
  exists l1 w1 w2 l' w' blocks_pre blocks_post,
    content_loop env pre l w = (Ok l1, w1)
    /\ content_step env file l1 w1 = (Ok l1, w2)
    /\ In (ERROR, ContentError e) (log w2)
    /\ In (INFO, DidNotAppend file) (log w2)
    /\ content_loop env post l1 w2 = (Ok l', w')
    /\ content_loop env (pre ++ file :: post) l w = (Ok l', w')
    /\ document l'
       = document l ++ String.concat "" blocks_pre
           ++ String.concat "" blocks_post
    /\ Forall2 (content_fragment env) pre blocks_pre
    /\ Forall2 (content_fragment env) post blocks_post.
Proof.
  intros Hfail.
  destruct (content_loop_fragments env pre l w)
    as (l1 & w1 & bs1 & Hrun1 & Hdoc1 & Hfr1).
  destruct (Hfail w1) as (w1' & Hraise).
  pose proof (content_step_raised env file l1 w1 w1' e Hraise) as Hstep.
  destruct (content_loop_fragments env post l1
              (add_log (add_log w1' [(ERROR, ContentError e)])
                       [(INFO, DidNotAppend file)]))
    as (l' & w' & bs2 & Hrun2 & Hdoc2 & Hfr2).
  exists l1, w1,
    (add_log (add_log w1' [(ERROR, ContentError e)]) [(INFO, DidNotAppend file)]),
    l', w', bs1, bs2.
  repeat split; try eassumption.
  - cbn [log add_log]. apply in_or_app. left. apply in_or_app. right. now left.
  - cbn [log add_log]. apply in_or_app. right. now left.
  - rewrite content_loop_app, Hrun1. cbn [content_loop]. unfold bind.
    rewrite Hstep. exact Hrun2.
  - now rewrite Hdoc2, Hdoc1, PyStrFacts.append_assoc.
Qed.

(** The content loop over [a.md], [cut.json] (json cut short) and [c.txt]:
    two blocks, none for [cut.json]. *)
Lemma content_loop_omits_failed_file_sample :
  exists l' w',
    content_loop Sample.env
      [Sample.a_md; Sample.cut_json_file; Sample.c_txt] Sample.l0 Sample.w0
    = (Ok l', w')
    /\ document l'
       = document Sample.l0
           ++ content_block Sample.a_md "<markdown extensions=>| x | y |"
           ++ content_block Sample.c_txt "plain".
Proof.
  destruct (content_loop_omits_failed_file Sample.env
              [Sample.a_md] [Sample.c_txt] Sample.cut_json_file
              (ValueError "Expecting property name") Sample.l0 Sample.w0)
    as (l1 & w1 & w2 & l' & w' & bs1 & bs2 & _ & _ & _ & _ & _ & Hrun & _).
  - intros w0. eexists. reflexivity.
  - exists l', w'. split; [exact Hrun|].
    vm_compute in Hrun. injection Hrun as <- _. vm_compute. reflexivity.
Defined.

(** When the client fails on [b.json] with the detail
    [503 Service Unavailable], the detail is handed to the logger, and the
    list entry written for the file does not hold it. *)
Lemma client_error_detail_not_in_entry :
  ~ (forall l' w',
       upload_step Sample.env Sample.args Sample.b_json Sample.l0 Sample.w0
       = (Ok l', w') ->
       In (INFO, IgnoringFileDueToError Sample.b_json Sample.unavailable)
          (log w') ->
       PyStr.contains (exn_str Sample.unavailable) (document l') = true).
Proof.
  intros H.
  assert (Hrun : exists l' w',
             upload_step Sample.env Sample.args Sample.b_json Sample.l0
               Sample.w0 = (Ok l', w')
             /\ In (INFO, IgnoringFileDueToError Sample.b_json Sample.unavailable)
                  (log w')
             /\ PyStr.contains (exn_str Sample.unavailable) (document l')
               = false).
  { eexists _, _. split; [vm_compute; reflexivity|].
    split; [right; left; reflexivity | vm_compute; reflexivity]. }
  destruct Hrun as (l' & w' & Hrun & Hlog & Hno).
  rewrite (H l' w' Hrun Hlog) in Hno. discriminate.
Qed.

(** The text each branch of the turn appends for a file that is not
    skipped: the [except] branch the path, the measured size and the limit,
    the [else] branch the path and the identifier in the response of the
    client. *)
Lemma manifest_entry_texts
    (env : Env) (args : Args) (file : Path) (st_size : Z)
    (l : locals) (w : world) :
  FS.stat_size (fs env) file = Ok st_size ->
  skipped args file = false ->
  (forall e w1,
     upload_file_from_path env file (max_filesize args) w = (Raise e, w1) ->
     exists l' w',
       upload_step env args file l w = (Ok l', w')
       /\ document l'
          = document l ++ "<li>" ++ PyPath.str file ++ " ("
              ++ PyFloat.repr (megabytes st_size) ++ " MB > "
              ++ PyFloat.repr (max_filesize args) ++ " MB) </li>" ++ newline
       /\ log w' = (log w1 ++ [(INFO, IgnoringFileDueToError file e)])%list
       /\ calls w' = calls w1)
  /\ (forall r w1,
        upload_file_from_path env file (max_filesize args) w = (Ok r, w1) ->
        exists l',
          upload_step env args file l w = (Ok l', w1)
          /\ document l'
             = document l ++ "<li>" ++ PyPath.str file ++ ": <fileId="
                 ++ id r ++ "></li>" ++ newline
          /\ uploaded_files l' = (uploaded_files l ++ [r])%list).
Proof.
  intros Hs Hsk. split.
  - intros e w1 Hu. eexists _, _.
    split; [eapply upload_step_raised; eassumption|].
    cbn [document add_document log calls add_log]. unfold failed_entry.
    repeat split.
  - intros r w1 Hu. eexists.
    split; [eapply upload_step_returned; eassumption|].
    cbn [document uploaded_files add_document append_uploaded].
    unfold uploaded_entry. repeat split.
Qed.

(** The entries of [d.bin] (over the limit), [b.json] (the client failed)
    and [a.md] (uploaded) in the sample directory. *)
Lemma manifest_entry_texts_sample :
  (exists l' w',
     upload_step Sample.env Sample.args Sample.d_bin Sample.l0 Sample.w0
     = (Ok l', w')
     /\ document l'
        = document Sample.l0
            ++ "<li>exp/d.bin (5.0 MB > 2.0 MB) </li>" ++ newline)
  /\ (exists l' w',
        upload_step Sample.env Sample.args Sample.b_json Sample.l0 Sample.w0
        = (Ok l', w')
        /\ document l'
           = document Sample.l0
               ++ "<li>exp/b.json (1.1e-05 MB > 2.0 MB) </li>" ++ newline)
  /\ (exists l' w',
        upload_step Sample.env Sample.args Sample.a_md Sample.l0 Sample.w0
        = (Ok l', w')
        /\ document l'
           = document Sample.l0
               ++ "<li>exp/a.md: <fileId=100></li>" ++ newline).
Proof.
  split; [|split].
  - destruct (manifest_entry_texts Sample.env Sample.args Sample.d_bin
                5000000 Sample.l0 Sample.w0 eq_refl eq_refl) as [Hraise _].
    destruct (Hraise (too_large Sample.d_bin 5000000 PyFloat.lit_2_0) Sample.w0)
      as (l' & w' & Hstep & Hdoc & _); [vm_compute; reflexivity|].
    exists l', w'. split; [exact Hstep|]. rewrite Hdoc. vm_compute. reflexivity.
  - destruct (manifest_entry_texts Sample.env Sample.args Sample.b_json
                11 Sample.l0 Sample.w0 eq_refl eq_refl) as [Hraise _].
    edestruct (Hraise Sample.unavailable)
      as (l' & w' & Hstep & Hdoc & _); [vm_compute; reflexivity|].
    exists l', w'. split; [exact Hstep|]. rewrite Hdoc. vm_compute. reflexivity.
  - destruct (manifest_entry_texts Sample.env Sample.args Sample.a_md
                20 Sample.l0 Sample.w0 eq_refl eq_refl) as [_ Hret].
    edestruct (Hret {| id := "100" |})
      as (l' & Hstep & Hdoc & _); [vm_compute; reflexivity|].
    eexists l', _. split; [exact Hstep|]. rewrite Hdoc. vm_compute. reflexivity.
Defined.

(** C6.  What the loop writes for a file on which the client failed.  For
    a regular file that is not skipped and is within the limit, when the
    client raises [e], the turn appends the list entry of the [except]
    branch: the path, the measured size and the limit, joined by [MB >],
    although the size is not greater than the limit; the exception [e] is
    handed to the logger and is no part of what is appended. *)
Theorem failed_upload_entry_claims_oversize
    (env : Env) (args : Args) (file : Path) (st_size : Z) (e : exn)
    (l : locals) (w : world) :
  FS.is_file (fs env) file = true ->
  FS.stat_size (fs env) file = Ok st_size ->
  skipped args file = false ->
  PyFloat.leb (megabytes st_size) (max_filesize args) = true ->
  (forall earlier cap, upload_file env earlier file cap = Raise e) ->
  exists l' w',
    upload_step env args file l w = (Ok l', w')
    /\ document l'
       = document l ++ "<li>" ++ PyPath.str file ++ " ("
           ++ PyFloat.repr (megabytes st_size) ++ " MB > "
           ++ PyFloat.repr (max_filesize args) ++ " MB) </li>" ++ newline
    /\ PyFloat.ltb (max_filesize args) (megabytes st_size) = false
    /\ In (INFO, IgnoringFileDueToError file e) (log w').
Proof.
  intros Hf Hs Hsk Hl He.
  destruct (upload_step_client_raised env args file st_size e l w
              Hf Hs Hsk Hl He) as (w' & Hstep & Hlog & _).
  eexists _, w'. split; [exact Hstep|]. split; [reflexivity|].
  split; [|exact Hlog].
  destruct (PyFloat.ltb (max_filesize args) (megabytes st_size)) eqn:Hlt;
    [|reflexivity].
  apply PyFloatFacts.ltb_not_leb in Hlt. congruence.
Qed.

(** [b.json], of 11 bytes, under the default limit, with the client
    failing: the entry reads [1.1e-05 MB > 2.0 MB] and does not hold the
    detail of the failure. *)
Lemma failed_upload_entry_claims_oversize_sample :
  exists l' w',
    upload_step Sample.env Sample.args Sample.b_json Sample.l0 Sample.w0
    = (Ok l', w')
    /\ document l'
       = document Sample.l0
           ++ "<li>exp/b.json (1.1e-05 MB > 2.0 MB) </li>" ++ newline
    /\ PyStr.contains (exn_str Sample.unavailable) (document l') = false.
Proof.
  destruct (failed_upload_entry_claims_oversize Sample.env Sample.args
              Sample.b_json 11 Sample.unavailable Sample.l0 Sample.w0)
    as (l' & w' & Hstep & Hdoc & _ & _).
  - reflexivity.
  - reflexivity.
  - reflexivity.
  - vm_compute. reflexivity.
  - intros earlier cap. reflexivity.
  - exists l', w'. split; [exact Hstep|].
    rewrite Hdoc. split; vm_compute; reflexivity.
Defined.

(** C7.  For a readable file with suffix [.md], [file2html] calls the
    markdown converter with no extension at all, where the conversion of
    [create_document.py] on the same file asks for tables, sane lists,
    fenced code and math. *)
Theorem file2html_markdown_without_extensions
    (env : Env) (file : Path) (st_size : Z) (text : string) (w : world) :
  FS.locate (fs env) file = Some (File st_size (Ok text)) ->
  PyPath.suffix file = ".md" ->
  exists w',
    file2html env file w = (Ok (markdown_markdown env text []), w')
    /\ source_text env (Some file)
       = Ok (markdown_markdown env text
               ["tables"; "sane_lists"; "fenced_code"; "pymdownx.arithmatex"]).
Proof.
  intros Hloc Hsuf. eexists. split.
  - unfold file2html, FS.exists_, FS.is_file, FS.read_text, bind, lift, logger, ret.
    rewrite Hloc, Hsuf. cbn. reflexivity.
  - unfold source_text, FS.read_text. rewrite Hloc, Hsuf. reflexivity.
Qed.

(** On [a.md], whose text is a table row, the two conversions are asked
    for different things. *)
Lemma file2html_markdown_without_extensions_sample :
  exists w',
    file2html Sample.env Sample.a_md Sample.w0
    = (Ok "<markdown extensions=>| x | y |", w')
    /\ source_text Sample.env (Some Sample.a_md)
       = Ok ("<markdown extensions=tables,sane_lists,fenced_code,"
               ++ "pymdownx.arithmatex>| x | y |").
Proof.
  exact (file2html_markdown_without_extensions Sample.env Sample.a_md 20
           "| x | y |" Sample.w0 eq_refl eq_refl).
Defined.

Lemma direct_files_in (directory : Path) (es : list (string * node))
    (p : Path) :
  In p (direct_files directory es)
  <-> exists nm sz t, In (nm, File sz t) es /\ p = PyPath.child directory nm.
Proof.
  unfold direct_files. rewrite in_map_iff. split.
  - intros ([nm c] & Hp & Hin). apply filter_In in Hin as [Hin Hreg].
    destruct c as [sz t| |]; try discriminate. now exists nm, sz, t.
  - intros (nm & sz & t & Hin & ->). exists (nm, File sz t).
    split; [reflexivity|]. apply filter_In. now split.
Qed.

(** C8, as stated, fails: [odd] is an existing directory that holds the
    regular file [a.txt] and a FIFO, and the walk of it yields no list: it
    raises. *)
Lemma walk_of_directory_with_fifo_raises :
  FS.is_dir (fs Sample.env) Sample.odd = true
  /\ direct_files Sample.odd Sample.odd_entries = [Sample.rel ["odd"; "a.txt"]]
  /\ ~ (exists files w',
          list_files Sample.env Sample.odd false Sample.w0 = (Ok files, w')).
Proof.
  split; [reflexivity|]. split; [reflexivity|].
  intros (files & w' & H). vm_compute in H. discriminate.
Qed.

(** C8, amended.  For every existing directory whose entries are all
    regular files or directories, [list_files] without recursion returns
    exactly the regular files directly inside it, in the order of the
    entries: each returned path is an entry of the directory that is a
    regular file, so no directory and no file of a subdirectory is among
    them. *)
Theorem list_files_flat
    (env : Env) (directory : Path) (st_size : Z)
    (es : list (string * node)) (w : world) :
  FS.locate (fs env) directory = Some (Dir st_size es) ->
  Forall (fun e => is_special (snd e) = false) es ->
  exists w',
    list_files env directory false w = (Ok (direct_files directory es), w')
    /\ (forall p,
          In p (direct_files directory es)
          <-> exists nm sz t,
                In (nm, File sz t) es /\ p = PyPath.child directory nm).
Proof.
  intros Hloc Hes. unfold list_files. rewrite Hloc.
  cbn [list_files_at]. unfold bind at 1. unfold logger at 1.
  edestruct (iterdir_flat env) as (w' & Hrun & _); [exact Hes|].
  exists w'. split; [rewrite Hrun; reflexivity | apply direct_files_in].
Qed.

(** The flat walk of [exp]: its seven files, not [sub] nor [sub/e.txt]. *)
Lemma list_files_flat_sample :
  exists w',
    list_files Sample.env Sample.exp false Sample.w0
    = (Ok [Sample.a_md; Sample.b_json; Sample.c_txt; Sample.d_bin;
           Sample.notes_log; Sample.readme; Sample.cut_json_file], w').
Proof.
  destruct (list_files_flat Sample.env Sample.exp 4096 Sample.exp_entries
              Sample.w0 eq_refl) as (w' & Hrun & _).
  - repeat constructor.
  - exists w'. exact Hrun.
Defined.

(** C9.  When a value [s] is given to [--ignore], a file is skipped if and
    only if its suffix occurs in [s] as a contiguous run of characters.  So
    a file without suffix is skipped whatever [s] is, and with [.mdx] for
    [s] a file with suffix [.md] is skipped. *)
Theorem ignore_value_is_a_substring_test
    (env : Env) (args : Args) (s : string) (file : Path)
    (l : locals) (w : world) :
  ignore args = Some s ->
  (py_in (PyPath.suffix file) (ignore_files args) = true
   <-> exists a b, s = a ++ PyPath.suffix file ++ b)
  /\ (PyPath.suffix file = "" ->
      upload_step env args file l w
      = (Ok l, add_log w [(DEBUG, IgnoringFiletype file)]))
  /\ (s = ".mdx" -> PyPath.suffix file = ".md" ->
      upload_step env args file l w
      = (Ok l, add_log w [(DEBUG, IgnoringFiletype file)])).
Proof.
  intros Hs.
  assert (Hin : forall x, py_in x (ignore_files args) = PyStr.contains x s).
  { intros x. unfold ignore_files. rewrite Hs. reflexivity. }
  split; [rewrite Hin; apply PyStrFacts.contains_split|]. split.
  - intros Hsuf. apply upload_step_skipped. unfold skipped.
    rewrite Hin, Hsuf. apply PyStrFacts.contains_empty.
  - intros -> Hsuf. apply upload_step_skipped. unfold skipped.
    rewrite Hin, Hsuf. reflexivity.
Qed.

(** With [--ignore .mdx], both [README] and [a.md] are skipped. *)
Lemma ignore_value_is_a_substring_test_sample :
  upload_step Sample.env Sample.args_ignore_mdx Sample.readme Sample.l0 Sample.w0
  = (Ok Sample.l0, add_log Sample.w0 [(DEBUG, IgnoringFiletype Sample.readme)])
  /\ upload_step Sample.env Sample.args_ignore_mdx Sample.a_md Sample.l0 Sample.w0
     = (Ok Sample.l0, add_log Sample.w0 [(DEBUG, IgnoringFiletype Sample.a_md)]).
Proof.
  split.
  - destruct (ignore_value_is_a_substring_test Sample.env
                Sample.args_ignore_mdx ".mdx" Sample.readme Sample.l0
                Sample.w0 eq_refl) as (_ & Hempty & _).
    apply Hempty. reflexivity.
  - destruct (ignore_value_is_a_substring_test Sample.env
                Sample.args_ignore_mdx ".mdx" Sample.a_md Sample.l0
                Sample.w0 eq_refl) as (_ & _ & Hmdx).
    apply Hmdx; reflexivity.
Defined.

(* ================================================================== *)
(** * The whole script *)



(* ================================================================== *)
(** * More about the walk *)

(** The list a walk of the directory node [n] at [directory] is to return:
    the entries in order, a regular file as its path, a directory as the
    walk of it (when subdirectories are processed) or as nothing. *)
Fixpoint walk_files (process_subdir : bool) (directory : Path) (n : node)
    {struct n} : list Path :=
  match n with
  | Dir _ es =>
      List.flat_map
        (fun e =>
           match snd e with
           | File _ _ => [PyPath.child directory (fst e)]
           | Dir _ _ =>
               if process_subdir
               then walk_files process_subdir
                      (PyPath.child directory (fst e)) (snd e)
               else []
           | Special _ => []
           end) es
  | _ => []
  end.

(** Whether the walk of the directory node [n] meets an entry that is
    neither a regular file nor a directory. *)
Fixpoint unrecognized (process_subdir : bool) (n : node) {struct n} : bool :=
  match n with
  | Dir _ es =>
      List.existsb
        (fun e =>
           match snd e with
           | File _ _ => false
           | Dir _ _ => andb process_subdir (unrecognized process_subdir (snd e))
           | Special _ => true
           end) es
  | _ => false
  end.

Definition is_directory (n : node) : bool :=
  match n with Dir _ _ => true | _ => false end.

Definition is_value_error (e : exn) : bool :=
  match e with ValueError _ => true | _ => false end.

Section WalkMore.
Variable env : Env.

(** What the entry [e] of a directory does to the walk. *)
Definition stops_walk (process_subdir : bool) (e : string * node) : bool :=
  match snd e with
  | File _ _ => false
  | Dir _ _ => andb process_subdir (unrecognized process_subdir (snd e))
  | Special _ => true
  end.

Definition entry_files (spec : Path -> node -> list Path)
    (process_subdir : bool) (directory : Path) (e : string * node)
  : list Path :=
  match snd e with
  | File _ _ => [PyPath.child directory (fst e)]
  | Dir _ _ =>
      if process_subdir then spec (PyPath.child directory (fst e)) (snd e)
      else []
  | Special _ => []
  end.

(** The outcome of a monadic walk [m] from the world [w]: it asks nothing
    of the client, and it raises a [ValueError] or returns [files]
    according to [bad]. *)
Definition walk_outcome (m : M (list Path)) (w : world) (bad : bool)
    (files : list Path) : Prop :=
  exists w',
    calls w' = calls w
    /\ if bad then exists msg, m w = (Raise (ValueError msg), w')
       else m w = (Ok files, w').

(** The loop over the entries, given what the recursive call does on each
    entry that is a directory. *)
Lemma iterdir_outcome (walk : Path -> node -> M (list Path))
    (spec : Path -> node -> list Path)
    (directory : Path) (process_subdir : bool)
    (es : list (string * node)) :
  Forall (fun e =>
            is_directory (snd e) = true -> process_subdir = true ->
            forall w,
              walk_outcome (walk (PyPath.child directory (fst e)) (snd e)) w
                (unrecognized process_subdir (snd e))
                (spec (PyPath.child directory (fst e)) (snd e))) es ->
  forall files w,
    walk_outcome (iterdir env walk directory process_subdir es files) w
      (List.existsb (stops_walk process_subdir) es)
      (files ++ List.flat_map (entry_files spec process_subdir directory) es).
Proof.
  induction 1 as [|[nm c] es Hc _ IH]; intros files w.
  - exists w. cbn. now rewrite app_nil_r.
  - unfold walk_outcome in *.
    cbn [iterdir flat_map existsb]. unfold bind, logger.
    unfold stops_walk at 1, entry_files at 1. cbn [fst snd] in *.
    destruct c as [sz t|sz sub|sz].
    + cbn [orb].
      match goal with
      | |- context [iterdir env walk directory _ es ?f ?w0] =>
          destruct (IH f w0) as (w' & Hcalls & Hrun)
      end.
      exists w'. split; [exact Hcalls|].
      destruct (existsb _ es); [exact Hrun|].
      rewrite Hrun. cbn. now rewrite <- app_assoc.
    + destruct process_subdir; cbn [andb orb].
      * match goal with
        | |- context [walk ?p ?c ?w0] =>
            destruct (Hc eq_refl eq_refl w0) as (w1 & Hcalls1 & Hwalk)
        end.
        destruct (unrecognized true (Dir sz sub)); cbn [orb].
        -- destruct Hwalk as (msg & Hwalk). exists w1.
           split; [exact Hcalls1|]. exists msg. rewrite Hwalk. reflexivity.
        -- rewrite Hwalk.
           match goal with
           | |- context [iterdir env walk directory _ es ?f ?w0] =>
               destruct (IH f w0) as (w' & Hcalls & Hrun)
           end.
           exists w'. split; [rewrite Hcalls; exact Hcalls1|].
           destruct (existsb _ es); [exact Hrun|].
           rewrite Hrun. now rewrite <- app_assoc.
      * match goal with
        | |- context [iterdir env walk directory _ es ?f ?w0] =>
            destruct (IH f w0) as (w' & Hcalls & Hrun)
        end.
        exists w'. split; [exact Hcalls|].
        destruct (existsb _ es); [exact Hrun|].
        rewrite Hrun. reflexivity.
    + cbn [orb]. eexists. split; [|eexists; reflexivity]. reflexivity.
Qed.

(** The walk of a directory node: it raises a [ValueError] when it meets an
    unrecognized entry and returns [walk_files] otherwise. *)
Lemma list_files_at_outcome (n : node) (process_subdir : bool) :
  is_directory n = true ->
  forall directory w,
    walk_outcome (list_files_at env directory n process_subdir) w
      (unrecognized process_subdir n)
      (walk_files process_subdir directory n).
Proof.
  induction n as [sz t|sz|sz es IH] using node_nested_ind;
    intros Hd directory w; try discriminate.
  assert (Hes : Forall (fun e =>
            is_directory (snd e) = true -> process_subdir = true ->
            forall w,
              walk_outcome
                (list_files_at env (PyPath.child directory (fst e)) (snd e)
                   process_subdir) w
                (unrecognized process_subdir (snd e))
                (walk_files process_subdir (PyPath.child directory (fst e))
                   (snd e))) es).
  { eapply Forall_impl; [|exact IH]. intros [nm c] Hn Hdir _ w1. now apply Hn. }
  destruct (iterdir_outcome
              (fun child c => list_files_at env child c process_subdir)
              (walk_files process_subdir) directory process_subdir es Hes []
              (add_log w [(DEBUG, ProcessingDirectory directory)]))
    as (w' & Hcalls & Hrun).
  exists w'. split; [exact Hcalls|]. exact Hrun.
Qed.

End WalkMore.

(* ------------------------------------------------------------------ *)

Section WalkShape.

Lemma below_nil (directory : Path) : below directory [] = directory.
Proof. destruct directory. unfold below. cbn. now rewrite app_nil_r. Qed.

Lemma below_inj (directory : Path) (r1 r2 : list string) :
  below directory r1 = below directory r2 -> r1 = r2.
Proof.
  unfold below. intros H. injection H as H. exact (app_inv_head _ _ _ H).
Qed.

(** Every path of [walk_files] lies strictly below the directory, under
    the name of the entry it comes from. *)
Lemma walk_files_below (process_subdir : bool) (n : node) :
  forall directory p,
    In p (walk_files process_subdir directory n) ->
    exists nm rest, p = below directory (nm :: rest).
Proof.
  induction n as [sz t|sz|sz es IH] using node_nested_ind;
    intros directory p Hin; try contradiction.
  cbn [walk_files] in Hin. apply in_flat_map in Hin as ([nm c] & Hin & Hp).
  rewrite Forall_forall in IH. specialize (IH _ Hin). cbn [fst snd] in *.
  destruct c as [sz1 t1|sz1 sub|sz1]; [| |contradiction].
  - destruct Hp as [<-|[]]. exists nm, []. reflexivity.
  - destruct process_subdir; [|contradiction].
    destruct (IH _ _ Hp) as (nm' & rest & ->).
    exists nm, (nm' :: rest). apply below_child.
Qed.

Lemma entry_paths_start_with_name (process_subdir : bool) (directory : Path)
    (nm : string) (c : node) (p : Path) :
  In p (entry_files (walk_files process_subdir) process_subdir directory (nm, c)) ->
  exists rest, p = below directory (nm :: rest).
Proof.
  unfold entry_files. cbn [fst snd].
  destruct c as [sz t|sz sub|sz]; [| |contradiction].
  - intros [<-|[]]. exists []. reflexivity.
  - destruct process_subdir; [|contradiction]. intros Hin.
    destruct (walk_files_below _ _ _ _ Hin) as (nm' & rest & ->).
    exists (nm' :: rest). apply below_child.
Qed.

(** With unique entry names no path occurs twice in [walk_files]. *)
Lemma walk_files_NoDup (process_subdir : bool) (n : node) :
  unique_names n ->
  forall directory, NoDup (walk_files process_subdir directory n).
Proof.
  induction n as [sz t|sz|sz es IH] using node_nested_ind;
    intros Hu directory; try constructor.
  apply unique_names_dir in Hu as [Hnd Hall].
  change (walk_files process_subdir directory (Dir sz es))
    with (List.flat_map
            (entry_files (walk_files process_subdir) process_subdir directory) es).
  induction es as [|[nm c] es IHes]; [constructor|].
  cbn [flat_map]. cbn [List.map fst] in Hnd.
  inversion Hnd as [|? ? Hnot Hnd']; subst.
  inversion IH as [|? ? IHc IHrest]; subst.
  inversion Hall as [|? ? Hc Hrest]; subst.
  apply NoDup_app.
  - unfold entry_files. cbn [fst snd] in *.
    destruct c as [sz1 t1|sz1 sub|sz1]; [repeat constructor; intros [] | |constructor].
    destruct process_subdir; [now apply IHc | constructor].
  - now apply IHes.
  - intros p Hp Hq. apply entry_paths_start_with_name in Hp as (rest & ->).
    apply in_flat_map in Hq as ([nm' c'] & Hin' & Hq).
    apply entry_paths_start_with_name in Hq as (rest' & Heq).
    apply below_inj in Heq. injection Heq as -> _.
    apply Hnot. apply in_map_iff. now exists (nm', c').
Qed.

End WalkShape.

(* ------------------------------------------------------------------ *)

Lemma assoc_in (nm : string) (c : node) (es : list (string * node)) :
  FS.assoc nm es = Some c -> In (nm, c) es.
Proof.
  induction es as [|[nm' c'] es IH]; [discriminate|].
  cbn [FS.assoc]. destruct (String.eqb_spec nm nm') as [->|_].
  - intros H. injection H as ->. now left.
  - intros H. right. now apply IH.
Qed.

(** Unique names go down the tree. *)
Lemma resolve_keeps_unique_names (ps : list string) :
  forall n c,
    unique_names n -> FS.resolve n ps = Some c -> unique_names c.
Proof.
  induction ps as [|nm ps IH]; intros n c Hu Hres.
  - cbn in Hres. now injection Hres as <-.
  - cbn [FS.resolve] in Hres. destruct n as [|sz es|]; try discriminate.
    destruct (FS.assoc nm es) as [c'|] eqn:Ha; [|discriminate].
    apply (IH c' c); [|exact Hres].
    apply unique_names_dir in Hu as [_ Hall]. rewrite Forall_forall in Hall.
    exact (Hall (nm, c') (assoc_in _ _ _ Ha)).
Qed.

Section WalkTheorems.
Variable env : Env.

(** X1.  The recursive walk of an existing directory whose tree holds only
    regular files and directories returns the depth-first flattening of the
    tree, [walk_files]: the entries in [iterdir()] order, each
    subdirectory replaced where it stands by its own walk; the client is
    not asked anything. *)
Theorem recursive_walk_flattens_tree
    (directory : Path) (n : node) (w : world) :
  FS.locate (fs env) directory = Some n ->
  is_directory n = true ->
  unrecognized true n = false ->
  exists w',
    list_files env directory true w = (Ok (walk_files true directory n), w')
    /\ calls w' = calls w.
Proof.
  intros Hloc Hd Hu. unfold list_files. rewrite Hloc.
  destruct (list_files_at_outcome env n true Hd directory w)
    as (w' & Hcalls & Hrun).
  rewrite Hu in Hrun. exists w'. split; assumption.
Qed.

(** X2.  A walk that meets an entry that is neither a regular file nor a
    directory raises a [ValueError] and returns no list: for the flat walk
    when such an entry stands directly in the directory, for the recursive
    walk when one stands anywhere in the tree below it. *)
Theorem walk_raises_on_unrecognized_entry
    (directory : Path) (n : node) (process_subdir : bool) (w : world) :
  FS.locate (fs env) directory = Some n ->
  is_directory n = true ->
  unrecognized process_subdir n = true ->
  exists msg w',
    list_files env directory process_subdir w = (Raise (ValueError msg), w')
    /\ calls w' = calls w.
Proof.
  intros Hloc Hd Hu. unfold list_files. rewrite Hloc.
  destruct (list_files_at_outcome env n process_subdir Hd directory w)
    as (w' & Hcalls & Hrun).
  rewrite Hu in Hrun. destruct Hrun as (msg & Hrun).
  exists msg, w'. split; assumption.
Qed.

(** X3.  On a file system with unique entry names, the list a walk returns
    (flat or recursive) holds no path twice, and each of its paths lies
    below the walked directory and is a regular file of the file system. *)
Theorem walked_paths_are_distinct_regular_files
    (directory : Path) (process_subdir : bool) (w : world)
    (files : list Path) (w' : world) :
  unique_names (root (fs env)) ->
  list_files env directory process_subdir w = (Ok files, w') ->
  NoDup files
  /\ Forall (fun p => FS.is_file (fs env) p = true) files
  /\ Forall (fun p => exists nm rest, p = below directory (nm :: rest)) files.
Proof.
  intros Hu Hrun.
  pose proof (list_files_are_files env _ _ _ _ _ Hu Hrun) as Hfiles.
  unfold list_files in Hrun.
  destruct (FS.locate (fs env) directory) as [n|] eqn:Hloc; [|discriminate].
  assert (Hd : is_directory n = true).
  { destruct n; [cbn in Hrun; discriminate | reflexivity | cbn in Hrun; discriminate]. }
  assert (Hun : unique_names n).
  { eapply resolve_keeps_unique_names; [exact Hu | exact Hloc]. }
  destruct (list_files_at_outcome env n process_subdir Hd directory w)
    as (w1 & _ & Hout).
  destruct (unrecognized process_subdir n).
  - destruct Hout as (msg & Hout). rewrite Hout in Hrun. discriminate.
  - rewrite Hout in Hrun. injection Hrun as <- _.
    split; [now apply walk_files_NoDup|]. split; [exact Hfiles|].
    apply Forall_forall. intros p Hp. eapply walk_files_below. exact Hp.
Qed.

(** X4.  When the path does not name an existing directory (it is missing,
    a regular file or something else), [list_files] raises its
    [ValueError] in both modes, and the script stops with that exception
    before any file is uploaded and before any document text exists. *)
Theorem not_a_directory_stops_the_script
    (args : Args) (process_subdir : bool) (w : world) :
  FS.is_dir (fs env) (path args) = false ->
  list_files env (path args) process_subdir w
  = (Raise (cannot_process env (path args)),
     add_log w [(DEBUG, ProcessingDirectory (path args))])
  /\ main env args w
     = (Raise (cannot_process env (path args)),
        add_log w [(DEBUG, ProcessingDirectory (path args))]).
Proof.
  intros Hd.
  assert (Hl : forall ps, list_files env (path args) ps w
                 = (Raise (cannot_process env (path args)),
                    add_log w [(DEBUG, ProcessingDirectory (path args))])).
  { intros ps. unfold list_files, FS.is_dir in *.
    destruct (FS.locate (fs env) (path args)) as [[| |]|];
      (reflexivity || discriminate). }
  split; [apply Hl|]. unfold main, bind. now rewrite Hl.
Qed.

End WalkTheorems.

(* ------------------------------------------------------------------ *)
(** * More about [file2html] and the uploads *)


Section UploadMore.
Variable env : Env.
Variable args : Args.







End UploadMore.

(** X5.  For a path that is not a regular file, [file2html] raises a
    [ValueError] before reading or logging anything: the message says that
    the file does not exist when [exists()] is false (nothing is at the
    path, or a dangling link is), and that it is not a file when a
    directory or another kind of entry is there. *)
Theorem file2html_rejects_what_is_not_a_file
    (env : Env) (filename : Path) (w : world) :
  FS.is_file (fs env) filename = false ->
  file2html env filename w
  = (Raise (ValueError
              ("File " ++ PyPath.str (FS.absolute (fs env) filename)
                 ++ if FS.exists_ (fs env) filename
                    then " is not a file" else " does not exist")), w).
Proof.
  intros Hf. unfold file2html. rewrite Hf.
  destruct (FS.exists_ (fs env) filename); reflexivity.
Qed.

(** X6.  The suffix test of [file2html] is exact: a readable file whose
    suffix is neither [.md] nor [.json] (no suffix, another suffix, the
    same letters in upper case) comes back as its text, unchanged, and
    neither converter is used. *)
Theorem file2html_passes_other_suffixes_through
    (env : Env) (filename : Path) (st_size : Z) (text : string) (w : world) :
  FS.locate (fs env) filename = Some (File st_size (Ok text)) ->
  PyPath.suffix filename <> ".md" ->
  PyPath.suffix filename <> ".json" ->
  file2html env filename w
  = (Ok text, add_log w [(DEBUG, ReadText text filename)]).
Proof.
  intros Hloc Hmd Hjson.
  unfold file2html, FS.exists_, FS.is_file, FS.read_text, bind, lift, logger.
  rewrite Hloc. apply String.eqb_neq in Hmd, Hjson. rewrite Hmd, Hjson.
  reflexivity.
Qed.


(** X8.  A file that is gone when its turn comes, and is not skipped,
    ends the upload loop: [upload_file_from_path] raises on the missing
    file, the [except] branch asks for the size of the file again, and this
    second exception leaves the loop.  The files after it get no turn. *)
Theorem vanished_file_ends_upload_loop
    (env : Env) (args : Args) (pre post : list Path) (file : Path)
    (l : locals) (w : world) :
  Forall (fun f => FS.exists_ (fs env) f = true) pre ->
  FS.exists_ (fs env) file = false ->
  skipped args file = false ->
  exists l1 w1,
    upload_loop env args pre l w = (Ok l1, w1)
    /\ upload_loop env args (pre ++ file :: post) l w
       = (Raise (OSError ("No such file or directory: " ++ PyPath.str file)),
          add_log w1
            [(INFO, IgnoringFileDueToError file
                      (OSError ("No such file or directory: "
                                  ++ PyPath.str file)))]).
Proof.
  intros Hpre Hgone Hsk.
  destruct (upload_loop_entries env args pre l w Hpre)
    as (l1 & w1 & es & Hrun & _ & _).
  exists l1, w1. split; [exact Hrun|].
  rewrite upload_loop_app, Hrun. cbn [upload_loop]. unfold bind.
  assert (Hstat : FS.stat_size (fs env) file
                  = Raise (OSError ("No such file or directory: " ++ PyPath.str file))).
  { unfold FS.exists_ in Hgone. unfold FS.stat_size.
    destruct (FS.locate (fs env) file) as [[sz0 t0|sz0 es0|[sz0|]]|];
      (discriminate || reflexivity). }
  unfold upload_step. unfold skipped in Hsk. rewrite Hsk.
  unfold try_except_else, bind, upload_file_from_path, bind, lift, logger.
  rewrite Hstat. reflexivity.
Qed.

(* ------------------------------------------------------------------ *)
(** ** The sample directory again *)

Lemma sample_tree_unique_names : unique_names Sample.tree.
Proof. cbn. repeat (split || constructor); cbn; intuition discriminate. Qed.

Definition sample_e_txt : Path := Sample.rel ["exp"; "sub"; "e.txt"].
Definition sample_gone : Path := Sample.rel ["exp"; "gone.txt"].
Definition sample_here : Path := Sample.rel [].

(** The recursive walk of [exp]: [sub/e.txt] stands where [sub] does. *)
Lemma recursive_walk_flattens_tree_sample :
  exists w',
    list_files Sample.env Sample.exp true Sample.w0
    = (Ok [Sample.a_md; Sample.b_json; Sample.c_txt; Sample.d_bin;
           sample_e_txt; Sample.notes_log; Sample.readme;
           Sample.cut_json_file], w').
Proof.
  destruct (recursive_walk_flattens_tree Sample.env Sample.exp
              (Dir 4096 Sample.exp_entries) Sample.w0 eq_refl eq_refl eq_refl)
    as (w' & Hrun & _).
  exists w'. exact Hrun.
Defined.

(** The FIFO of [odd] stops the flat walk of [odd] and the recursive walk
    of the directory above it. *)
Lemma walk_raises_on_unrecognized_entry_sample :
  (exists msg w',
     list_files Sample.env Sample.odd false Sample.w0
     = (Raise (ValueError msg), w'))
  /\ (exists msg w',
        list_files Sample.env sample_here true Sample.w0
        = (Raise (ValueError msg), w')).
Proof.
  split.
  - destruct (walk_raises_on_unrecognized_entry Sample.env Sample.odd
                (Dir 4096 Sample.odd_entries) false Sample.w0
                eq_refl eq_refl eq_refl) as (msg & w' & Hrun & _).
    exists msg, w'. exact Hrun.
  - destruct (walk_raises_on_unrecognized_entry Sample.env sample_here
                (Dir 4096 [("exp", Dir 4096 Sample.exp_entries);
                           ("odd", Dir 4096 Sample.odd_entries)])
                true Sample.w0 eq_refl eq_refl eq_refl)
      as (msg & w' & Hrun & _).
    exists msg, w'. exact Hrun.
Defined.

Lemma walked_paths_are_distinct_regular_files_sample :
  exists files w',
    list_files Sample.env Sample.exp true Sample.w0 = (Ok files, w')
    /\ NoDup files
    /\ Forall (fun p => FS.is_file (fs Sample.env) p = true) files.
Proof.
  destruct (list_files Sample.env Sample.exp true Sample.w0)
    as [[files|e] w'] eqn:Hrun; [|vm_compute in Hrun; discriminate].
  destruct (walked_paths_are_distinct_regular_files Sample.env Sample.exp
              true Sample.w0 files w' sample_tree_unique_names Hrun)
    as (Hnd & Hfiles & _).
  exists files, w'. repeat split; assumption.
Defined.

(** The script given the regular file [a.md] for a directory. *)
Lemma not_a_directory_stops_the_script_sample :
  exists msg w',
    main Sample.env
      {| path := Sample.a_md; ignore := None;
         max_filesize := PyFloat.lit_2_0 |} Sample.w0
    = (Raise (ValueError msg), w')
    /\ calls w' = [].
Proof.
  destruct (not_a_directory_stops_the_script Sample.env
              {| path := Sample.a_md; ignore := None;
                 max_filesize := PyFloat.lit_2_0 |} true Sample.w0 eq_refl)
    as [_ Hmain].
  eexists _, _. split; [exact Hmain | reflexivity].
Defined.

Definition sample_pipe : Path := Sample.rel ["odd"; "pipe"].

(** A directory and a FIFO are no files; a path that leads nowhere and a
    dangling link do not exist. *)
Lemma file2html_rejects_what_is_not_a_file_sample :
  file2html Sample.env Sample.exp Sample.w0
  = (Raise (ValueError "File /home/u/exp is not a file"), Sample.w0)
  /\ file2html Sample.env sample_pipe Sample.w0
     = (Raise (ValueError "File /home/u/odd/pipe is not a file"), Sample.w0)
  /\ file2html Sample.env sample_gone Sample.w0
     = (Raise (ValueError "File /home/u/exp/gone.txt does not exist"),
        Sample.w0)
  /\ file2html EdgeSample.env EdgeSample.link Sample.w0
     = (Raise (ValueError "File /data/link does not exist"), Sample.w0).
Proof.
  split; [|split; [|split]].
  - exact (file2html_rejects_what_is_not_a_file Sample.env Sample.exp
             Sample.w0 eq_refl).
  - exact (file2html_rejects_what_is_not_a_file Sample.env sample_pipe
             Sample.w0 eq_refl).
  - exact (file2html_rejects_what_is_not_a_file Sample.env sample_gone
             Sample.w0 eq_refl).
  - exact (file2html_rejects_what_is_not_a_file EdgeSample.env EdgeSample.link
             Sample.w0 eq_refl).
Defined.

(** [README] has no suffix and [notes.log] another one. *)
Lemma file2html_passes_other_suffixes_through_sample :
  fst (file2html Sample.env Sample.readme Sample.w0) = Ok "hello"
  /\ fst (file2html Sample.env Sample.notes_log Sample.w0) = Ok "done".
Proof.
  split.
  - rewrite (file2html_passes_other_suffixes_through Sample.env Sample.readme
               12 "hello" Sample.w0 eq_refl); [reflexivity | |];
      intros H; vm_compute in H; discriminate.
  - rewrite (file2html_passes_other_suffixes_through Sample.env
               Sample.notes_log 300 "done" Sample.w0 eq_refl);
      [reflexivity | |]; intros H; vm_compute in H; discriminate.
Defined.


Lemma vanished_file_ends_upload_loop_sample :
  exists w',
    upload_loop Sample.env Sample.args
      [Sample.a_md; sample_gone; Sample.c_txt] Sample.l0 Sample.w0
    = (Raise (OSError "No such file or directory: exp/gone.txt"), w')
    /\ List.map fst (calls w') = [Sample.a_md].
Proof.
  destruct (vanished_file_ends_upload_loop Sample.env Sample.args
              [Sample.a_md] [Sample.c_txt] sample_gone Sample.l0 Sample.w0)
    as (l1 & w1 & Hpre & Hrun).
  - repeat constructor.
  - reflexivity.
  - reflexivity.
  - eexists. split; [exact Hrun|].
    vm_compute in Hpre. injection Hpre as _ <-. reflexivity.
Defined.

(* ================================================================== *)
(** * [scripts/create_document.py] and [tools/list_documents.py] *)

(** What the client hands back: parsed json. *)
#[warnings="-register-all"] Inductive value : Type :=
| VNone
| VBool (b : bool)
| VInt (n : Z)
| VStr (s : string)
| VList (l : list value)
| VDict (d : list (string * value)).

Definition dict : Type := list (string * value).

Module PyDict.

(** [d.get(key)], [None] when the key is absent. *)
Fixpoint get (key : string) (d : dict) : option value :=
  match d with
  | [] => None
  | (k, v) :: d' => if String.eqb key k then Some v else get key d'
  end.

(** [d[key] = v] (also [d.update({key: v})]): the value of a key that is
    present is replaced where it stands, a new key goes to the end. *)
Fixpoint set (key : string) (v : value) (d : dict) : dict :=
  match d with
  | [] => [(key, v)]
  | (k, v') :: d' =>
      if String.eqb key k then (k, v) :: d' else (k, v') :: set key v d'
  end.

End PyDict.

Module Eln.

(** The exceptions of these scripts: a missing key, a wrong type, or an
    exception of the file system or of the client. *)
Inductive error : Type :=
| KeyError (key : string)
| TypeError (msg : string)
| Raised (e : exn).

(** How a run ends: it returns, it raises, or it is still going when the
    steps allowed to its loop are used up. *)
Inductive outcome (A : Type) : Type :=
| Returned (a : A)
| Failed (e : error)
| Unfinished.

Arguments Returned {A} a.
Arguments Failed {A} e.
Arguments Unfinished {A}.

(** A request to the ELN client. *)
Inductive request : Type :=
| GetDocuments (args : list value) (kwargs : dict)
| CreateDocument (name : string) (content : string) (tags : list string)
    (parent_folder_id : option Z).

(** The calls of [print], one constructor per call site ([c]: of
    [create_document.py], [l]: of [list_documents.py], with the line). *)
Inductive printed : Type :=
| DocumentsBefore (n_docs : value)        (* [c54] *)
| CreatedWithId (document_id : value)     (* [c68] *)
| DocumentsAfter (n_docs : value)         (* [c72] *)
| SourceText (text : string)              (* [c167] *)
| DocumentsOnRSpace (n_docs : value)      (* [l40] *)
| Retrieved (n : Z)                       (* [l50] *)
| Table (table : string).                 (* [l81] *)

Record world : Type := { requests : list request; stdout : list printed }.

(** The ELN client: its answer to a request, given the requests made
    before. *)
Record Client : Type := {
  get_documents : list request -> list value -> dict -> result dict;
  create_document_ : list request -> string -> string -> list string
                     -> option Z -> result dict
}.

Definition E (A : Type) : Type := world -> outcome A * world.

Definition ret {A} (a : A) : E A := fun w => (Returned a, w).

Definition fail {A} (e : error) : E A := fun w => (Failed e, w).

Definition unfinished {A} : E A := fun w => (Unfinished, w).

Definition bind {A B} (m : E A) (k : A -> E B) : E B :=
  fun w =>
    match m w with
    | (Returned a, w') => k a w'
    | (Failed e, w') => (Failed e, w')
    | (Unfinished, w') => (Unfinished, w')
    end.

Definition lift {A} (r : result A) : E A :=
  fun w =>
    match r with
    | Ok a => (Returned a, w)
    | Raise e => (Failed (Raised e), w)
    end.

Declare Scope eln_scope.
Delimit Scope eln_scope with eln.
Notation "x <- m ;; k" := (bind m (fun x => k))
  (at level 61, m at next level, right associativity) : eln_scope.
Notation "m ;; k" := (bind m (fun _ => k))
  (at level 61, right associativity) : eln_scope.
Local Open Scope eln_scope.

Definition print (p : printed) : E unit :=
  fun w => (Returned tt, {| requests := requests w; stdout := stdout w ++ [p] |}).

(** [client.get_documents] called with [args] and [kwargs]. *)
Definition client_get_documents (client : Client) (args : list value)
    (kwargs : dict) : E dict :=
  fun w =>
    lift (get_documents client (requests w) args kwargs)
      {| requests := requests w ++ [GetDocuments args kwargs];
         stdout := stdout w |}.

(** [client.create_document(name=..., fields=[{content: text}], tags=...,
    parent_folder_id=...)]. *)
Definition client_create_document (client : Client) (name text : string)
    (tags : list string) (parent_folder_id : option Z) : E dict :=
  fun w =>
    lift (create_document_ client (requests w) name text tags parent_folder_id)
      {| requests := requests w ++ [CreateDocument name text tags parent_folder_id];
         stdout := stdout w |}.

(** [d[key]] for a dictionary [d]. *)
Definition subscript (d : dict) (key : string) : E value :=
  match PyDict.get key d with
  | Some v => ret v
  | None => fail (KeyError key)
  end.

(** [v[key]] for any value [v] and a string [key]. *)
Definition index (v : value) (key : string) : E value :=
  match v with
  | VDict d => subscript d key
  | VList _ => fail (TypeError "list indices must be integers or slices, not str")
  | VStr _ => fail (TypeError "string indices must be integers, not str")
  | _ => fail (TypeError "object is not subscriptable")
  end.

(** [len(v)]. *)
Definition len (v : value) : E Z :=
  match v with
  | VStr s => ret (PyStr.len s)
  | VList l => ret (Z.of_nat (List.length l))
  | VDict d => ret (Z.of_nat (List.length d))
  | _ => fail (TypeError "object has no len()")
  end.

Fixpoint chars (s : string) : list value :=
  match s with
  | EmptyString => []
  | String c s' => VStr (String c EmptyString) :: chars s'
  end.

(** The items [documents += v] appends. *)
Definition items (v : value) : E (list value) :=
  match v with
  | VList l => ret l
  | VStr s => ret (chars s)
  | VDict d => ret (List.map (fun kv => VStr (fst kv)) d)
  | _ => fail (TypeError "object is not iterable")
  end.

(** ** [create_document.py] *)

(** The argument [tags]: [None], a string or a list of strings.  In
    [create_document] the first two tests turn it into a list, on which
    the third test works. *)
Inductive tags_arg : Type :=
| TagsNone
| TagsStr (s : string)
| TagsList (l : list string).

(** The three tests on [tags] before the document is created. *)
Definition tags_to_send (tags : tags_arg) : list string :=
  let tags := match tags with TagsNone => TagsList ["API"] | _ => tags end in
  let tags := match tags with TagsStr s => TagsList [s] | _ => tags end in
  let tags := match tags with TagsList l => l | _ => [] end in
  if List.existsb (String.eqb "API") tags then tags
  else (tags ++ ["API"])%list.

Definition create_document (client : Client) (name text : string)
    (tags : tags_arg) (parent_id : option Z) : E dict :=
  response <- client_get_documents client [] [] ;;
  n_docs <- subscript response "totalHits" ;;
  print (DocumentsBefore n_docs) ;;
  let tags := tags_to_send tags in
  document <- client_create_document client name text tags parent_id ;;
  document_id <- subscript document "id" ;;
  print (CreatedWithId document_id) ;;
  response <- client_get_documents client [] [] ;;
  n_docs <- subscript response "totalHits" ;;
  print (DocumentsAfter n_docs) ;;
  ret document.

(** The command-line arguments of [create_document.py] that its body
    reads. *)
Record CreateArgs : Type := {
  name : string;                   (* [name] *)
  source : option Path;            (* [--source] *)
  tags : option (list string);     (* [--tags], one or more *)
  parent_id : option Z;            (* [--parent_id] *)
  print_ : bool;                   (* [--print] *)
  dry : bool                       (* [--dry] *)
}.

(** The script body from the conversion of the source on. *)
Definition create_document_main (env : Env) (client : Client)
    (args : CreateArgs) : E unit :=
  text <- lift (source_text env (source args)) ;;
  (if orb (print_ args) (dry args) then print (SourceText text) else ret tt) ;;
  if negb (dry args) then
    create_document client (name args) text
      (match tags args with None => TagsNone | Some l => TagsList l end)
      (parent_id args) ;;
    ret tt
  else ret tt.

(** ** [list_documents.py] *)

(** The loop [while True] of [list_documents], with [fuel] turns allowed:
    [kwargs], [documents] and [i] are the variables of the loop. *)
Fixpoint page_loop (fuel : nat) (client : Client) (args : list value)
    (kwargs : dict) (documents : list value) (i : Z) : E (list value) :=
  match fuel with
  | O => unfinished
  | S fuel' =>
      let kwargs := PyDict.set "page_number" (VInt i) kwargs in
      response <- client_get_documents client args kwargs ;;
      page <- subscript response "documents" ;;
      n <- len page ;;
      if n =? 0 then ret documents
      else
        more <- items page ;;
        page_loop fuel' client args kwargs (documents ++ more)%list (i + 1)
  end.

Definition list_documents (fuel : nat) (client : Client) (args : list value)
    (kwargs : dict) : E (list value) :=
  response <- client_get_documents client args kwargs ;;
  n_docs <- subscript response "totalHits" ;;
  print (DocumentsOnRSpace n_docs) ;;
  documents <- page_loop fuel client args kwargs [] 0 ;;
  print (Retrieved (Z.of_nat (List.length documents))) ;;
  ret documents.

(** The rows of [print_documents]: identifier, name and creation date of
    each document. *)
Fixpoint rows (documents : list value) : E (list (list value)) :=
  match documents with
  | [] => ret []
  | document :: documents' =>
      document_id <- index document "id" ;;
      document_name <- index document "name" ;;
      created <- index document "created" ;;
      rest <- rows documents' ;;
      ret ([document_id; document_name; created] :: rest)
  end.

(** [print_documents], with [tabulate.tabulate] (called with the rows and
    the headers) as a parameter. *)
Definition print_documents
    (tabulate : list (list value) -> list string -> string)
    (documents : list value) : E unit :=
  table_rows <- rows documents ;;
  print (Table (tabulate table_rows ["ID"; "Name"; "Created"])).

End Eln.

(* ================================================================== *)
(** * Properties of the two scripts *)

Import Eln.

Definition is_creation (r : request) : bool :=
  match r with CreateDocument _ _ _ _ => true | GetDocuments _ _ => false end.

(** The documents a run has asked the client to create. *)
Definition creations (w : Eln.world) : list request :=
  List.filter is_creation (requests w).

(** The tags the caller gave. *)
Definition given_tags (tags : tags_arg) : list string :=
  match tags with
  | TagsNone => []
  | TagsStr s => [s]
  | TagsList l => l
  end.

Lemma creations_add_get (w : Eln.world) (args : list value) (kwargs : dict)
    (out : list printed) :
  creations {| requests := requests w ++ [GetDocuments args kwargs];
               stdout := out |} = creations w.
Proof.
  unfold creations. cbn [requests]. rewrite filter_app. cbn.
  now rewrite app_nil_r.
Qed.

Lemma set_set (key : string) (v v' : value) (d : dict) :
  PyDict.set key v (PyDict.set key v' d) = PyDict.set key v d.
Proof.
  induction d as [|[k x] d IH]; cbn.
  - now rewrite String.eqb_refl.
  - destruct (String.eqb key k) eqn:Hk; cbn; rewrite Hk; [reflexivity|].
    now rewrite IH.
Qed.

Lemma get_set (key : string) (v : value) (d : dict) :
  PyDict.get key (PyDict.set key v d) = Some v.
Proof.
  induction d as [|[k x] d IH]; cbn.
  - now rewrite String.eqb_refl.
  - destruct (String.eqb key k) eqn:Hk; cbn; now rewrite Hk.
Qed.

Lemma tags_to_send_given (tags : tags_arg) :
  tags_to_send tags
  = (given_tags tags
       ++ if List.existsb (String.eqb "API") (given_tags tags)
          then [] else ["API"])%list.
Proof.
  destruct tags as [|s|l]; [reflexivity| |];
    cbv beta iota zeta delta [given_tags tags_to_send];
    match goal with
    | |- context [List.existsb ?f ?l0] => destruct (List.existsb f l0)
    end; rewrite ?app_nil_r; reflexivity.
Qed.

(** The requests and the end of a run of [create_document] whose first
    listing was answered with a [totalHits]. *)
Lemma create_document_after_listing
    (client : Client) (name text : string) (tags : tags_arg)
    (parent_id : option Z) (w : Eln.world) (response : dict) (n_docs : value) :
  get_documents client (requests w) [] [] = Ok response ->
  PyDict.get "totalHits" response = Some n_docs ->
  let creation := CreateDocument name text (tags_to_send tags) parent_id in
  let before := (requests w ++ [GetDocuments [] []])%list in
  exists r w',
    create_document client name text tags parent_id w = (r, w')
    /\ (requests w' = (before ++ [creation])%list
        \/ requests w' = (before ++ [creation; GetDocuments [] []])%list)
    /\ (forall document,
          r = Returned document ->
          create_document_ client before name text (tags_to_send tags) parent_id
          = Ok document).
Proof.
  intros Hget Hhits. cbv zeta.
  unfold create_document, bind, client_get_documents, client_create_document,
    subscript, print, lift, ret, fail.
  rewrite Hget. cbn [requests stdout]. rewrite Hhits. cbn [requests stdout].
  cbv zeta.
  destruct (create_document_ client _ name text _ parent_id) as [document|e].
  - destruct (PyDict.get "id" document) as [document_id|]; cbn [requests stdout].
    + match goal with
      | |- context [get_documents client ?h [] []] =>
          destruct (get_documents client h [] []) as [response2|e2]
      end.
      * destruct (PyDict.get "totalHits" response2); cbn [requests stdout];
          eexists _, _; (split; [reflexivity|]); cbn [requests];
          rewrite <- !app_assoc; (split; [right; reflexivity|]);
          intros d Hd; (discriminate || now injection Hd as <-).
      * eexists _, _. split; [reflexivity|]. cbn [requests].
        rewrite <- !app_assoc. split; [right; reflexivity | discriminate].
    + eexists _, _. split; [reflexivity|]. cbn [requests].
      split; [left; reflexivity | discriminate].
  - eexists _, _. split; [reflexivity|]. cbn [requests].
    split; [left; reflexivity | discriminate].
Qed.

(** X10.  Whenever [create_document] gets as far as creating the
    document (the first listing answered with a [totalHits]), it asks for
    exactly one document, whose tags are the tags of the caller, in their
    order, with [API] added at the end unless it is already among them; so
    [API] is always among the tags sent. *)
Theorem create_document_always_sends_API_tag
    (client : Client) (name text : string) (tags : tags_arg)
    (parent_id : option Z) (w : Eln.world) (response : dict) (n_docs : value) :
  get_documents client (requests w) [] [] = Ok response ->
  PyDict.get "totalHits" response = Some n_docs ->
  exists sent,
    creations (snd (create_document client name text tags parent_id w))
    = (creations w ++ [CreateDocument name text sent parent_id])%list
    /\ sent = (given_tags tags
                 ++ if List.existsb (String.eqb "API") (given_tags tags)
                    then [] else ["API"])%list
    /\ In "API" sent.
Proof.
  intros Hget Hhits.
  destruct (create_document_after_listing client name text tags parent_id w
              response n_docs Hget Hhits) as (r & w' & Hrun & Hreq & _).
  exists (tags_to_send tags). rewrite Hrun. cbn [snd].
  split; [|split; [apply tags_to_send_given|]].
  - unfold creations.
    destruct Hreq as [-> | ->]; rewrite !filter_app; cbn;
      now rewrite ?app_nil_r.
  - rewrite tags_to_send_given. apply in_or_app.
    destruct (List.existsb (String.eqb "API") (given_tags tags)) eqn:Hex.
    + left. apply existsb_exists in Hex as (x & Hin & Heq).
      apply String.eqb_eq in Heq. now subst x.
    + right. now left.
Qed.

(** X11.  When the first listing fails, because the client raises or
    because its answer has no [totalHits], [create_document] raises after
    that one request: no document is created and nothing is printed. *)
Theorem create_document_creates_nothing_after_failed_listing
    (client : Client) (name text : string) (tags : tags_arg)
    (parent_id : option Z) (w : Eln.world) :
  (forall response,
     get_documents client (requests w) [] [] = Ok response ->
     PyDict.get "totalHits" response = None) ->
  exists e,
    create_document client name text tags parent_id w
    = (Failed e,
       {| requests := requests w ++ [GetDocuments [] []];
          stdout := stdout w |})
    /\ (e = KeyError "totalHits"
        \/ exists e', e = Raised e'
                      /\ get_documents client (requests w) [] [] = Raise e').
Proof.
  intros Hbad.
  unfold create_document, bind, client_get_documents, subscript, lift, fail.
  destruct (get_documents client (requests w) [] []) as [response|e'].
  - rewrite (Hbad response eq_refl). eexists. split; [reflexivity | now left].
  - eexists. split; [reflexivity|]. right. now exists e'.
Qed.

(** X12.  When the document has been created but its response holds no
    [id], or the listing after the creation fails, [create_document]
    raises: the caller gets no response although the client was asked to
    create the document, once. *)
Theorem create_document_raises_after_creation
    (client : Client) (name text : string) (tags : tags_arg)
    (parent_id : option Z) (w : Eln.world) (response document : dict)
    (n_docs : value) :
  get_documents client (requests w) [] [] = Ok response ->
  PyDict.get "totalHits" response = Some n_docs ->
  let before := (requests w ++ [GetDocuments [] []])%list in
  let creation := CreateDocument name text (tags_to_send tags) parent_id in
  create_document_ client before name text (tags_to_send tags) parent_id
  = Ok document ->
  (PyDict.get "id" document = None
   \/ forall response2,
        get_documents client (before ++ [creation]) [] [] = Ok response2 ->
        PyDict.get "totalHits" response2 = None) ->
  exists e w',
    create_document client name text tags parent_id w = (Failed e, w')
    /\ creations w' = (creations w ++ [creation])%list.
Proof.
  intros Hget Hhits before creation Hcreate Hbad.
  unfold create_document, bind, client_get_documents, client_create_document,
    subscript, print, lift, ret, fail.
  rewrite Hget. cbn [requests stdout]. rewrite Hhits. cbn [requests stdout].
  cbv zeta. fold before. rewrite Hcreate.
  assert (Hc : forall rs out,
             creations {| requests := (before ++ [creation]) ++ rs; stdout := out |}
             = (creations w ++ [creation] ++ List.filter is_creation rs)%list).
  { intros rs out. unfold creations, before. cbn [requests].
    rewrite !filter_app. cbn. now rewrite app_nil_r, <- app_assoc. }
  destruct (PyDict.get "id" document) as [document_id|] eqn:Hid.
  - destruct Hbad as [Hbad|Hbad]; [discriminate|]. cbn [requests stdout].
    fold creation.
    destruct (get_documents client (before ++ [creation]) [] [])
      as [response2|e2].
    + rewrite (Hbad response2 eq_refl). eexists _, _. split; [reflexivity|].
      rewrite Hc. reflexivity.
    + eexists _, _. split; [reflexivity|]. rewrite Hc. reflexivity.
  - eexists _, _. split; [reflexivity|]. fold creation.
    rewrite <- (app_nil_r (before ++ [creation])), Hc. cbn.
    reflexivity.
Qed.

(** X13.  With [--dry] the script [create_document.py] makes no request
    to the client: it prints the converted source text and returns, or it
    raises the exception of reading or converting the source. *)
Theorem dry_run_asks_nothing_of_client
    (env : Env) (client : Client) (args : CreateArgs) (w : Eln.world) :
  dry args = true ->
  create_document_main env client args w
  = match source_text env (source args) with
    | Ok text =>
        (Returned tt,
         {| requests := requests w; stdout := stdout w ++ [SourceText text] |})
    | Raise e => (Failed (Raised e), w)
    end.
Proof.
  intros Hdry. unfold create_document_main, bind, lift, print, ret.
  rewrite Hdry, orb_true_r. cbn [negb].
  destruct (source_text env (source args)); reflexivity.
Qed.

(** The request for page [i]. *)
Definition page_request (args : list value) (kwargs : dict) (i : nat)
  : request :=
  GetDocuments args (PyDict.set "page_number" (VInt (Z.of_nat i)) kwargs).

(** The client answers the request for page [i], whatever was requested
    before, with a dictionary whose [documents] is the list [page i]. *)
Definition serves_pages (client : Client) (args : list value) (kwargs : dict)
    (page : nat -> list value) : Prop :=
  forall earlier i,
  exists response,
    get_documents client earlier args
      (PyDict.set "page_number" (VInt (Z.of_nat i)) kwargs) = Ok response
    /\ PyDict.get "documents" response = Some (VList (page i)).

Lemma page_loop_collects (client : Client) (args : list value) (kwargs : dict)
    (page : nat -> list value) :
  serves_pages client args kwargs page ->
  forall (m fuel j : nat) (kw : dict) (documents : list value) (w : Eln.world),
    (forall v, PyDict.set "page_number" v kw = PyDict.set "page_number" v kwargs) ->
    (forall i, (j <= i < j + m)%nat -> page i <> []) ->
    page (j + m)%nat = [] ->
    (m < fuel)%nat ->
    page_loop fuel client args kw documents (Z.of_nat j) w
    = (Returned (documents ++ List.concat (List.map page (List.seq j m)))%list,
       {| requests :=
            requests w ++ List.map (page_request args kwargs) (List.seq j (S m));
          stdout := stdout w |}).
Proof.
  intros Hserve. induction m as [|m IH]; intros fuel j kw documents w Hkw Hfull Hlast Hfuel.
  - destruct fuel as [|fuel]; [lia|]. cbn [page_loop].
    unfold bind, client_get_documents, subscript, lift.
    rewrite Hkw. destruct (Hserve (requests w) j) as (response & -> & ->).
    rewrite Nat.add_0_r in Hlast. rewrite Hlast. cbn.
    now rewrite app_nil_r.
  - destruct fuel as [|fuel]; [lia|]. cbn [page_loop].
    unfold bind at 1 2 3 4. unfold client_get_documents, subscript, lift.
    rewrite Hkw. destruct (Hserve (requests w) j) as (response & -> & ->).
    assert (Hj : page j <> []) by (apply Hfull; lia).
    cbn [len ret items].
    destruct (page j) as [|d ds] eqn:Hpage; [contradiction|].
    replace (Z.of_nat (List.length (d :: ds)) =? 0) with false
      by (symmetry; apply Z.eqb_neq; cbn [List.length]; lia).
    replace (Z.of_nat j + 1) with (Z.of_nat (S j)) by lia.
    rewrite (IH fuel (S j)).
    + cbn [requests stdout List.seq List.map List.concat]. rewrite Hpage.
      f_equal; [now rewrite <- app_assoc|].
      f_equal. rewrite <- app_assoc. reflexivity.
    + intros v. now rewrite set_set.
    + intros i Hi. apply Hfull. lia.
    + replace (S j + m)%nat with (j + S m)%nat by lia. exact Hlast.
    + lia.
Qed.

(** X14.  [list_documents] pages until the first empty page.  If the
    first listing is answered with a [totalHits] and the client serves the
    pages [page 0], [page 1], ..., of which [page k] is the first empty
    one, then the function returns the documents of the pages before [k],
    in order, after the first listing and the requests for the pages [0]
    to [k]; each of these carries its number as [page_number], also when
    the caller gave a [page_number] of its own.  The [totalHits] of the
    answers plays no part in where the paging ends. *)
Theorem list_documents_collects_pages
    (client : Client) (args : list value) (kwargs : dict)
    (page : nat -> list value) (k fuel : nat) (w : Eln.world)
    (response : dict) (n_docs : value) :
  get_documents client (requests w) args kwargs = Ok response ->
  PyDict.get "totalHits" response = Some n_docs ->
  serves_pages client args kwargs page ->
  (forall i, (i < k)%nat -> page i <> []) ->
  page k = [] ->
  (k < fuel)%nat ->
  let documents := List.concat (List.map page (List.seq 0 k)) in
  list_documents fuel client args kwargs w
  = (Returned documents,
     {| requests :=
          requests w ++ GetDocuments args kwargs
            :: List.map (page_request args kwargs) (List.seq 0 (S k));
        stdout :=
          stdout w ++ [DocumentsOnRSpace n_docs;
                       Retrieved (Z.of_nat (List.length documents))] |}).
Proof.
  intros Hget Hhits Hserve Hfull Hlast Hfuel documents.
  unfold list_documents, bind at 1 2 3.
  unfold client_get_documents at 1. unfold subscript at 1. unfold lift.
  rewrite Hget. rewrite Hhits. unfold ret at 1. unfold print at 1.
  unfold bind at 1. change 0 with (Z.of_nat 0).
  rewrite (page_loop_collects client args kwargs page Hserve k fuel 0%nat kwargs []);
    [| reflexivity | intros i Hi; apply Hfull; lia | exact Hlast | exact Hfuel].
  unfold bind, print, ret. cbn [requests stdout app]. fold documents.
  f_equal. f_equal; rewrite <- app_assoc; reflexivity.
Qed.

Lemma page_loop_goes_on (client : Client) (args : list value) (kwargs : dict)
    (page : nat -> list value) :
  serves_pages client args kwargs page ->
  (forall i, page i <> []) ->
  forall (fuel j : nat) (kw : dict) (documents : list value) (w : Eln.world),
    (forall v, PyDict.set "page_number" v kw = PyDict.set "page_number" v kwargs) ->
    page_loop fuel client args kw documents (Z.of_nat j) w
    = (Unfinished,
       {| requests :=
            requests w ++ List.map (page_request args kwargs) (List.seq j fuel);
          stdout := stdout w |}).
Proof.
  intros Hserve Hfull. induction fuel as [|fuel IH]; intros j kw documents w Hkw.
  - cbn. unfold unfinished. rewrite app_nil_r. now destruct w.
  - cbn [page_loop]. unfold bind at 1 2 3 4.
    unfold client_get_documents, subscript, lift.
    rewrite Hkw. destruct (Hserve (requests w) j) as (response & -> & ->).
    cbn [len ret items]. specialize (Hfull j).
    destruct (page j) as [|d ds] eqn:Hpage; [contradiction|].
    replace (Z.of_nat (List.length (d :: ds)) =? 0) with false
      by (symmetry; apply Z.eqb_neq; cbn [List.length]; lia).
    replace (Z.of_nat j + 1) with (Z.of_nat (S j)) by lia.
    rewrite (IH (S j)); [|intros v; now rewrite set_set].
    cbn [requests stdout List.seq List.map]. rewrite <- app_assoc. reflexivity.
Qed.

(** X15.  [list_documents] has no other way out of its loop than an
    empty page: against a client that answers every page request with a
    non-empty page the loop is still running after any number of turns,
    one request further each turn, and nothing is returned. *)
Theorem list_documents_needs_an_empty_page
    (client : Client) (args : list value) (kwargs : dict)
    (page : nat -> list value) (fuel : nat) (w : Eln.world)
    (response : dict) (n_docs : value) :
  get_documents client (requests w) args kwargs = Ok response ->
  PyDict.get "totalHits" response = Some n_docs ->
  serves_pages client args kwargs page ->
  (forall i, page i <> []) ->
  list_documents fuel client args kwargs w
  = (Unfinished,
     {| requests :=
          requests w ++ GetDocuments args kwargs
            :: List.map (page_request args kwargs) (List.seq 0 fuel);
        stdout := stdout w ++ [DocumentsOnRSpace n_docs] |}).
Proof.
  intros Hget Hhits Hserve Hfull.
  unfold list_documents, bind at 1 2 3.
  unfold client_get_documents at 1. unfold subscript at 1. unfold lift.
  rewrite Hget. rewrite Hhits. unfold ret at 1. unfold print at 1.
  unfold bind at 1. change 0 with (Z.of_nat 0).
  rewrite (page_loop_goes_on client args kwargs page Hserve Hfull fuel 0%nat kwargs []);
    [|reflexivity].
  cbn [requests stdout]. rewrite <- app_assoc. reflexivity.
Qed.

(** The cells of the row of a document: its [id], [name] and [created],
    when it is a dictionary that holds the three. *)
Definition columns (document : value) : option (list value) :=
  match document with
  | VDict d =>
      match PyDict.get "id" d, PyDict.get "name" d, PyDict.get "created" d with
      | Some document_id, Some document_name, Some created =>
          Some [document_id; document_name; created]
      | _, _, _ => None
      end
  | _ => None
  end.

Lemma rows_of_complete_documents (documents : list value)
    (table_rows : list (list value)) (w : Eln.world) :
  List.map columns documents = List.map Some table_rows ->
  rows documents w = (Returned table_rows, w).
Proof.
  revert table_rows. induction documents as [|document documents IH];
    intros [|row table_rows] H; try discriminate; [reflexivity|].
  cbn [List.map] in H. injection H as Hrow Hrest.
  cbn [rows].
  unfold columns in Hrow. destruct document as [| | | | |d]; try discriminate.
  cbn [index]. unfold subscript.
  destruct (PyDict.get "id" d); [|discriminate].
  destruct (PyDict.get "name" d); [|discriminate].
  destruct (PyDict.get "created" d); [|discriminate].
  injection Hrow as <-. unfold bind, ret. now rewrite (IH _ Hrest).
Qed.

Lemma rows_of_incomplete_documents (documents : list value) (w : Eln.world) :
  (exists document, In document documents /\ columns document = None) ->
  exists e, rows documents w = (Failed e, w).
Proof.
  induction documents as [|document documents IH]; intros (bad & Hin & Hbad);
    [contradiction|].
  cbn [rows].
  destruct (columns document) as [row|] eqn:Hrow.
  - destruct Hin as [->|Hin]; [congruence|].
    destruct (IH (ex_intro _ bad (conj Hin Hbad))) as (e & He).
    unfold columns in Hrow. destruct document as [| | | | |d]; try discriminate.
    cbn [index]. unfold subscript.
    destruct (PyDict.get "id" d); [|discriminate].
    destruct (PyDict.get "name" d); [|discriminate].
    destruct (PyDict.get "created" d); [|discriminate].
    unfold bind, ret. rewrite He. now exists e.
  - unfold columns in Hrow. destruct document as [| | | | |d];
      try (eexists; reflexivity).
    cbn [index]. unfold subscript, fail, ret, bind.
    destruct (PyDict.get "id" d); [|eexists; reflexivity].
    destruct (PyDict.get "name" d); [|eexists; reflexivity].
    destruct (PyDict.get "created" d); [discriminate|eexists; reflexivity].
Qed.

(** X16.  [print_documents] prints all or nothing.  When every document
    is a dictionary with [id], [name] and [created], it prints one table
    with one row of these three cells for each document, in order (a table
    without rows for the empty list).  When some document is not, it raises
    and prints nothing, also not the rows of the documents before. *)
Theorem print_documents_prints_all_or_nothing
    (tabulate : list (list value) -> list string -> string)
    (documents : list value) (w : Eln.world) :
  (forall table_rows,
     List.map columns documents = List.map Some table_rows ->
     print_documents tabulate documents w
     = (Returned tt,
        {| requests := requests w;
           stdout := stdout w
                       ++ [Table (tabulate table_rows ["ID"; "Name"; "Created"])] |}))
  /\ ((exists document, In document documents /\ columns document = None) ->
      exists e, print_documents tabulate documents w = (Failed e, w)).
Proof.
  split.
  - intros table_rows H. unfold print_documents, bind.
    now rewrite (rows_of_complete_documents documents table_rows w H).
  - intros H. destruct (rows_of_incomplete_documents documents w H) as (e & He).
    exists e. unfold print_documents, bind. now rewrite He.
Qed.

(* ------------------------------------------------------------------ *)
(** ** Sample clients *)

Module ElnSample.

Definition w0 : Eln.world := {| requests := []; stdout := [] |}.

Definition doc (n : Z) (nm : string) : value :=
  VDict [("id", VInt n); ("name", VStr nm); ("created", VStr "2025-01-16")].

(** Three documents on two pages. *)
Definition page (i : nat) : list value :=
  match i with
  | O => [doc 1 "first"; doc 2 "second"]
  | S O => [doc 3 "third"]
  | _ => []
  end.

Definition number_of (kwargs : dict) : nat :=
  match PyDict.get "page_number" kwargs with
  | Some (VInt n) => Z.to_nat n
  | _ => O
  end.

(** A client that serves these pages and creates what it is asked to. *)
Definition client : Client :=
  {| get_documents := fun _ _ kwargs =>
       Ok [("totalHits", VInt 3); ("documents", VList (page (number_of kwargs)))];
     create_document_ := fun _ nm _ tags _ =>
       Ok [("id", VInt 42); ("name", VStr nm);
           ("tags", VList (List.map VStr tags))] |}.

(** A client whose pages are never empty. *)
Definition endless : Client :=
  {| get_documents := fun _ _ _ =>
       Ok [("totalHits", VInt 1); ("documents", VList [doc 1 "first"])];
     create_document_ := create_document_ client |}.

(** A client that refuses every request. *)
Definition refusing : Client :=
  {| get_documents := fun _ _ _ => Raise (ClientError "401 Unauthorized");
     create_document_ := fun _ _ _ _ _ => Raise (ClientError "401 Unauthorized") |}.

(** A client whose creation response holds no [id]. *)
Definition terse : Client :=
  {| get_documents := get_documents client;
     create_document_ := fun _ _ _ _ _ => Ok [] |}.

(** [create_document.py Summary --source exp/a.md --dry]. *)
Definition dry_args : CreateArgs :=
  {| name := "Summary"; source := Some Sample.a_md; tags := None;
     parent_id := None; print_ := false; dry := true |}.

Lemma client_serves_pages (args : list value) (kwargs : dict) :
  serves_pages client args kwargs page.
Proof.
  intros earlier i. eexists. split; [reflexivity|].
  cbn. unfold number_of. rewrite get_set, Nat2Z.id. reflexivity.
Qed.

Lemma endless_serves_pages (args : list value) (kwargs : dict) :
  serves_pages endless args kwargs (fun _ => [doc 1 "first"]).
Proof. intros earlier i. eexists. split; reflexivity. Qed.

End ElnSample.

(** With the tags [results] and [run7], [API] is added; the document is
    asked for once. *)
Lemma create_document_always_sends_API_tag_sample :
  creations (snd (create_document ElnSample.client "Summary" "<p>text</p>"
                    (TagsList ["results"; "run7"]) None ElnSample.w0))
  = [CreateDocument "Summary" "<p>text</p>" ["results"; "run7"; "API"] None].
Proof.
  destruct (create_document_always_sends_API_tag ElnSample.client "Summary"
              "<p>text</p>" (TagsList ["results"; "run7"]) None ElnSample.w0
              _ (VInt 3) eq_refl eq_refl) as (sent & Hc & -> & _).
  exact Hc.
Defined.

Lemma create_document_creates_nothing_after_failed_listing_sample :
  exists e,
    create_document ElnSample.refusing "Summary" "<p>text</p>" TagsNone None
      ElnSample.w0
    = (Failed e, {| requests := [GetDocuments [] []]; stdout := [] |}).
Proof.
  destruct (create_document_creates_nothing_after_failed_listing
              ElnSample.refusing "Summary" "<p>text</p>" TagsNone None
              ElnSample.w0) as (e & Hrun & _).
  - intros response H. discriminate.
  - exists e. exact Hrun.
Defined.

Lemma create_document_raises_after_creation_sample :
  exists e w',
    create_document ElnSample.terse "Summary" "<p>text</p>" (TagsStr "run7")
      None ElnSample.w0 = (Failed e, w')
    /\ creations w'
       = [CreateDocument "Summary" "<p>text</p>" ["run7"; "API"] None].
Proof.
  destruct (create_document_raises_after_creation ElnSample.terse "Summary"
              "<p>text</p>" (TagsStr "run7") None ElnSample.w0 _ []
              (VInt 3) eq_refl eq_refl eq_refl (or_introl eq_refl))
    as (e & w' & Hrun & Hc).
  exists e, w'. split; [exact Hrun | exact Hc].
Defined.

(** A dry run on [a.md] of the sample directory. *)
Lemma dry_run_asks_nothing_of_client_sample :
  create_document_main Sample.env ElnSample.client ElnSample.dry_args
    ElnSample.w0
  = (Returned tt,
     {| requests := [];
        stdout := [SourceText
                     ("<markdown extensions=tables,sane_lists,fenced_code,"
                        ++ "pymdownx.arithmatex>| x | y |")] |}).
Proof.
  rewrite (dry_run_asks_nothing_of_client Sample.env ElnSample.client
             ElnSample.dry_args ElnSample.w0 eq_refl).
  reflexivity.
Defined.

(** Three documents on two pages, the third page empty; the caller asked
    for page 7. *)
Lemma list_documents_collects_pages_sample :
  exists w',
    list_documents 10 ElnSample.client [] [("page_number", VInt 7)]
      ElnSample.w0
    = (Returned [ElnSample.doc 1 "first"; ElnSample.doc 2 "second";
                 ElnSample.doc 3 "third"], w')
    /\ requests w'
       = [GetDocuments [] [("page_number", VInt 7)];
          GetDocuments [] [("page_number", VInt 0)];
          GetDocuments [] [("page_number", VInt 1)];
          GetDocuments [] [("page_number", VInt 2)]].
Proof.
  eexists. rewrite (list_documents_collects_pages ElnSample.client []
              [("page_number", VInt 7)] ElnSample.page 2 10 ElnSample.w0
              _ (VInt 3) eq_refl eq_refl (ElnSample.client_serves_pages _ _)).
  - split; reflexivity.
  - intros [|[|i]] Hi; (discriminate || lia).
  - reflexivity.
  - lia.
Defined.

Lemma list_documents_needs_an_empty_page_sample :
  exists w',
    list_documents 25 ElnSample.endless [] [] ElnSample.w0 = (Unfinished, w')
    /\ List.length (requests w') = 26%nat.
Proof.
  eexists. rewrite (list_documents_needs_an_empty_page ElnSample.endless []
              [] (fun _ => [ElnSample.doc 1 "first"]) 25 ElnSample.w0
              _ (VInt 1) eq_refl eq_refl (ElnSample.endless_serves_pages _ _)).
  - split; reflexivity.
  - discriminate.
Defined.

Lemma print_documents_prints_all_or_nothing_sample :
  print_documents (fun table_rows _ => PyStr.of_int (Z.of_nat (List.length table_rows)))
    [ElnSample.doc 1 "first"; ElnSample.doc 2 "second"] ElnSample.w0
  = (Returned tt, {| requests := []; stdout := [Table "2"] |})
  /\ exists e,
       print_documents (fun table_rows _ => PyStr.of_int (Z.of_nat (List.length table_rows)))
         [ElnSample.doc 1 "first"; VDict [("id", VInt 2)]] ElnSample.w0
       = (Failed e, ElnSample.w0).
Proof.
  split.
  - destruct (print_documents_prints_all_or_nothing
                (fun table_rows _ => PyStr.of_int (Z.of_nat (List.length table_rows)))
                [ElnSample.doc 1 "first"; ElnSample.doc 2 "second"]
                ElnSample.w0) as [Hall _].
    rewrite (Hall [[VInt 1; VStr "first"; VStr "2025-01-16"];
                   [VInt 2; VStr "second"; VStr "2025-01-16"]] eq_refl).
    reflexivity.
  - destruct (print_documents_prints_all_or_nothing
                (fun table_rows _ => PyStr.of_int (Z.of_nat (List.length table_rows)))
                [ElnSample.doc 1 "first"; VDict [("id", VInt 2)]]
                ElnSample.w0) as [_ Hnone].
    apply Hnone. exists (VDict [("id", VInt 2)]). split; [right; left|]; reflexivity.
Defined.
